(** * Lifestyle Balance Board: the dashboard's API client and its
      connectivity-check component

    A shallow embedding of

    - [frontend/src/services/api.ts]: the class [ApiService] with
      [getBaseUrl], [getApiInfo], [getHealthCheck] and [testConnection];
    - [frontend/src/components/ApiTestComponent.tsx]: the component
      [ApiTestComponent] with its handler [testApiConnection] and its
      render function.

    Asynchronous code is modelled by what its promises settle to.  The
    two requests of [testConnection] are in flight together; the order
    in which their promises settle is an explicit input (a schedule),
    and [Promise.all] is the small machine that consumes it.  The
    process environment, the network and the list of requests issued so
    far form the runtime state that the client's functions thread. *)

From Stdlib Require Import String Ascii List Bool.
From Stdlib Require Import NArith ZArith QArith Qround.
From Stdlib Require Import DecimalString DecimalPos DecimalN DecimalZ.
From Stdlib Require Import Lia.
Import ListNotations.

Local Open Scope string_scope.
Local Open Scope list_scope.

(* ================================================================== *)
(** ** JavaScript values *)
(* ================================================================== *)

(** A value that can be thrown, or that a promise can be rejected with.
    [JsError] is an object for which [instanceof Error] holds; it
    carries its [message].  Every other constructor is a value for
    which [instanceof Error] is false. *)
Inductive JsValue : Type :=
| JsUndefined
| JsNull
| JsBoolean (b : bool)
| JsNumber (q : Q)
| JsString (s : string)
| JsError (message : string).

(** [v instanceof Error] *)
Definition instanceof_Error (v : JsValue) : bool :=
  match v with
  | JsError _ => true
  | _ => false
  end.

(** [Number::toString] on a non-negative integer such as a status code. *)
Definition N_toString (n : N) : string :=
  NilZero.string_of_uint (N.to_uint n).

(** A number as [Math.floor] returns it: an integer, or [NaN] when the
    argument is [undefined]. *)
Inductive JsInteger : Type :=
| NaN
| Int (z : Z).

(** [Math.floor(x)], for [x] a number or [undefined]. *)
Definition Math_floor (x : option Q) : JsInteger :=
  match x with
  | Some q => Int (Qfloor q)
  | None => NaN
  end.

(** *** [Number::toString] on integers

    A number of the program is a binary64 double.  Up to [2^53] in
    absolute value every integer is one, and its text is its decimal
    digits.  Above, the doubles are the multiples of the unit in the
    last place, and the text is made of the fewest digits that still
    read back as the same double, padded with zeros, or in exponent
    form from [10^21] on. *)

(** The unit in the last place of the doubles from [2^e] to [2^(e+1)],
    for [n] among them and [e] at least 53. *)
Definition ulp (n : Z) : Z := (2 ^ (Z.log2 n - 52))%Z.

(** The double nearest to the integer [n], for [n] above [2^53]; a tie
    goes to the even significand.  A double is left as it is. *)
Definition nearest_double (n : Z) : Z :=
  let u := ulp n in
  let m := (n / u)%Z in
  let r := (n mod u)%Z in
  if (2 * r <? u)%Z then (m * u)%Z
  else if (u <? 2 * r)%Z then ((m + 1) * u)%Z
  else if Z.even m then (m * u)%Z else ((m + 1) * u)%Z.

(** Whether the integer [x] reads as the double [n]: it lies within
    half a unit of [n] (a quarter below a power of two, where the
    doubles below are twice as dense), the ends counting when the
    significand of [n] is even. *)
Definition rounds_to (n x : Z) : bool :=
  let below :=
    if (n =? 2 ^ Z.log2 n)%Z then (ulp n / 4)%Z else (ulp n / 2)%Z in
  let above := (ulp n / 2)%Z in
  if Z.even (n / ulp n)
  then ((n - below <=? x) && (x <=? n + above))%Z
  else ((n - below <? x) && (x <? n + above))%Z.

(** The multiple of [10^t] that reads as [n], if there is one: the one
    nearest to [n], and of two equally near the one with the even
    digits. *)
Definition candidate (n t : Z) : option Z :=
  let p := (10 ^ t)%Z in
  let c1 := (n / p * p)%Z in
  let c2 := (c1 + p)%Z in
  match rounds_to n c1, rounds_to n c2 with
  | true, true =>
      Some (if (n - c1 <? c2 - n)%Z then c1
            else if (c2 - n <? n - c1)%Z then c2
            else if Z.even (c1 / p) then c1 else c2)
  | true, false => Some c1
  | false, true => Some c2
  | false, false => None
  end.

(** The digits [s] and the number [t] of zeros after them, with [t] as
    large as it can be, tried from [t] downwards. *)
Fixpoint shortest (t : nat) (n : Z) : Z * Z :=
  match candidate n (Z.of_nat t) with
  | Some c => ((c / 10 ^ Z.of_nat t)%Z, Z.of_nat t)
  | None =>
      match t with
      | O => (n, 0%Z)
      | S t' => shortest t' n
      end
  end.

Fixpoint zeros (k : nat) : string :=
  match k with
  | O => ""
  | S k' => String "0" (zeros k')
  end.

Definition digits_of (n : Z) : string :=
  NilZero.string_of_uint (N.to_uint (Z.to_N n)).

(** The text of a double [n] above [2^53]. *)
Definition large_toString (n : Z) : string :=
  let (s, t) := shortest (Z.to_nat (Z.log2 n)) n in
  let ds := digits_of s in
  let k := Z.of_nat (String.length ds) in
  if (k + t <=? 21)%Z then ds ++ zeros (Z.to_nat t)
  else
    match ds with
    | String d EmptyString => String d ("e+" ++ digits_of (k + t - 1))
    | String d rest =>
        String d ("." ++ rest ++ "e+" ++ digits_of (k + t - 1))
    | EmptyString => ""
    end.

(** The text of an integer-valued number. *)
Definition Number_toString (z : Z) : string :=
  if (Z.abs z <=? 2 ^ 53)%Z then NilZero.string_of_int (Z.to_int z)
  else
    (if (z <? 0)%Z then "-" else "")
      ++ (if (2 ^ 1024 - 2 ^ 970 <=? Z.abs z)%Z then "Infinity"
          else large_toString (nearest_double (Z.abs z))).

(** The text React shows for a number child. *)
Definition JsInteger_toString (n : JsInteger) : string :=
  match n with
  | NaN => "NaN"
  | Int z => Number_toString z
  end.

(* ================================================================== *)
(** ** Parsed response bodies *)
(* ================================================================== *)

(** The properties the program reads from a parsed body.  A property is
    absent ([None], read as [undefined]) or holds a value of the type
    the interfaces [ApiResponse] and [HealthResponse] declare for it. *)
Record JsonObject : Type := {
  message : option string;
  version : option string;
  timestamp : option string;
  status : option string;
  uptime : option Q
}.

(** What [response.json()] can resolve to: [null], a boolean, a number,
    a string, an array or an object.  The body is not validated, so any
    of them reaches the component.  A number is held by its value as
    parsed, a binary64 double. *)
#[local] Unset Elimination Schemes.
Inductive Json : Type :=
| JsonNull
| JsonBoolean (b : bool)
| JsonNumber (q : Q)
| JsonString (s : string)
| JsonArray (items : list Json)
| JsonObj (o : JsonObject).
#[local] Set Elimination Schemes.

(** JavaScript truthiness, as [&&] tests it: [null], [false], [0] and
    [""] are falsy, every other body is truthy. *)
Definition truthy (j : Json) : bool :=
  match j with
  | JsonNull => false
  | JsonBoolean b => b
  | JsonNumber q => negb (Qeq_bool q 0)
  | JsonString EmptyString => false
  | JsonString (String _ _) => true
  | JsonArray _ => true
  | JsonObj _ => true
  end.

(** An object without any of the properties the program reads. *)
Definition no_properties : JsonObject :=
  {| message := None; version := None; timestamp := None;
     status := None; uptime := None |}.

(** The properties read from a truthy body: those of an object; a
    boolean, a number, a string and an array have none of them, so each
    read gives [undefined]. *)
Definition properties (j : Json) : JsonObject :=
  match j with
  | JsonObj o => o
  | _ => no_properties
  end.

(** [interface ApiResponse { message; version; timestamp }] *)
Definition ApiResponse (m v t : string) : Json :=
  JsonObj {| message := Some m; version := Some v; timestamp := Some t;
             status := None; uptime := None |}.

(** [interface HealthResponse { status; timestamp; uptime }] *)
Definition HealthResponse (s t : string) (u : Q) : Json :=
  JsonObj {| message := None; version := None; timestamp := Some t;
             status := Some s; uptime := Some u |}.

(** [interface ConnectionTestResult { apiInfo; healthCheck }] *)
Record ConnectionTestResult : Type := {
  apiInfo : Json;
  healthCheck : Json
}.

(* ================================================================== *)
(** ** Promises, by what they settle to *)
(* ================================================================== *)

Inductive Settled (A : Type) : Type :=
| Fulfilled (value : A)
| Rejected (reason : JsValue).

Arguments Fulfilled {A} value.
Arguments Rejected {A} reason.

(** The [Response] of [fetch], as far as the client reads it: the [ok]
    flag, the [status] code (here [http_status], an unsigned integer as
    in the Fetch standard), and what the promise of [json()] settles
    to. *)
Record Response : Type := {
  ok : bool;
  http_status : N;
  json : Settled Json
}.

(* ================================================================== *)
(** ** The runtime state and its monad *)
(* ================================================================== *)

(** [process.env], restricted to the variable the client reads. *)
Record ProcessEnv : Type := {
  NEXT_PUBLIC_API_BASE_URL : option string
}.

(** The process environment, the network, and the URLs requested so
    far, oldest first.  The network answers the [n]-th request (counted
    from 0) for a URL with what the promise of [fetch] settles to. *)
Record Runtime : Type := {
  process_env : ProcessEnv;
  network : nat -> string -> Settled Response;
  requests : list string
}.

Definition Io (A : Type) : Type := Runtime -> A * Runtime.

Definition ret {A : Type} (a : A) : Io A := fun rt => (a, rt).

Definition bind {A B : Type} (m : Io A) (k : A -> Io B) : Io B :=
  fun rt => let (a, rt') := m rt in k a rt'.

Declare Scope io_scope.
Delimit Scope io_scope with io.
Notation "x <- m ;; k" := (bind m (fun x => k))
  (at level 61, m at next level, right associativity) : io_scope.
Local Open Scope io_scope.

(** [fetch(url)]: the request is recorded and the network answers. *)
Definition fetch (url : string) : Io (Settled Response) :=
  fun rt =>
    (network rt (length (requests rt)) url,
     {| process_env := process_env rt;
        network := network rt;
        requests := requests rt ++ [url] |}).

(** An assignment to [process.env.NEXT_PUBLIC_API_BASE_URL], or its
    [delete] when [v] is [None]. *)
Definition set_env (v : option string) : Io unit :=
  fun rt =>
    (tt,
     {| process_env := {| NEXT_PUBLIC_API_BASE_URL := v |};
        network := network rt;
        requests := requests rt |}).

(* ================================================================== *)
(** ** [Promise.all] over two promises *)
(* ================================================================== *)

(** Which of the two promises handed to [Promise.all] settles. *)
Inductive Completion : Type :=
| ApiInfoSettles
| HealthCheckSettles.

Section PromiseAll.
Context {A B : Type}.

(** The state of one [Promise.all([p, q])]: the values collected so
    far and, once it is settled, what it settled to. *)
Record AllState : Type := {
  value0 : option A;
  value1 : option B;
  settled : option (Settled (A * B))
}.

Definition all_pending : AllState :=
  {| value0 := None; value1 := None; settled := None |}.

(** Settling an already settled promise has no effect. *)
Definition settle_once (o : Settled (A * B)) (s : AllState) : AllState :=
  match settled s with
  | Some _ => s
  | None => {| value0 := value0 s; value1 := value1 s; settled := Some o |}
  end.

(** After a value is stored: fulfil when no element is outstanding. *)
Definition fulfil_if_complete (s : AllState) : AllState :=
  match value0 s, value1 s with
  | Some a, Some b => settle_once (Fulfilled (a, b)) s
  | _, _ => s
  end.

(** The reaction of [Promise.all] to one of its promises settling: a
    fulfilment stores the value, a rejection rejects the whole. *)
Definition all_step (p : Settled A) (q : Settled B)
           (s : AllState) (c : Completion) : AllState :=
  match c with
  | ApiInfoSettles =>
      match p with
      | Fulfilled a =>
          fulfil_if_complete
            {| value0 := Some a; value1 := value1 s; settled := settled s |}
      | Rejected e => settle_once (Rejected e) s
      end
  | HealthCheckSettles =>
      match q with
      | Fulfilled b =>
          fulfil_if_complete
            {| value0 := value0 s; value1 := Some b; settled := settled s |}
      | Rejected e => settle_once (Rejected e) s
      end
  end.

(** [Promise.all([p, q])] under a schedule: [None] while it is still
    pending after every completion of the schedule has happened. *)
Definition Promise_all (p : Settled A) (q : Settled B)
           (schedule : list Completion) : option (Settled (A * B)) :=
  settled (fold_left (all_step p q) schedule all_pending).
End PromiseAll.

Arguments AllState : clear implicits.

(** What the machine keeps true of its state: a stored value is the
    value its promise was fulfilled with, a fulfilment of the whole
    carries the two values, and a rejection of the whole carries the
    reason of one of the two promises. *)
Definition all_consistent {A B : Type} (p : Settled A) (q : Settled B)
           (s : AllState A B) : Prop :=
  (forall a, value0 s = Some a -> p = Fulfilled a)
  /\ (forall b, value1 s = Some b -> q = Fulfilled b)
  /\ (forall a b, settled s = Some (Fulfilled (a, b)) ->
                  p = Fulfilled a /\ q = Fulfilled b)
  /\ (forall e, settled s = Some (Rejected e) ->
                p = Rejected e \/ q = Rejected e).

(** The two schedules in which both promises settle. *)
Definition api_info_first : list Completion :=
  [ApiInfoSettles; HealthCheckSettles].

Definition health_check_first : list Completion :=
  [HealthCheckSettles; ApiInfoSettles].

(* ================================================================== *)
(** ** [class ApiService] *)
(* ================================================================== *)

Module ApiService.

(** [a || b] for [a] a string or [undefined]: the empty string is
    falsy, as [undefined] is. *)
Definition or_else (a : option string) (b : string) : string :=
  match a with
  | Some (String c s) => String c s
  | Some EmptyString => b
  | None => b
  end.

(** [[
    static getBaseUrl(): string {
        return process.env.NEXT_PUBLIC_API_BASE_URL || "http://localhost:3001";
    }
    ]] *)
Definition getBaseUrl : Io string :=
  fun rt =>
    (or_else (NEXT_PUBLIC_API_BASE_URL (process_env rt))
             "http://localhost:3001",
     rt).

(** [[
    static async getApiInfo(): Promise<ApiResponse> {
        const response = await fetch(this.getBaseUrl());
        if (!response.ok) {
            throw new Error(`HTTP error! status: ${response.status}`);
        }
        return response.json();
    }
    ]]
    A rejection of [fetch] is thrown again by [await]; the promise of
    [json()] is returned as it is, so its rejection is the call's. *)
Definition getApiInfo : Io (Settled Json) :=
  url <- getBaseUrl ;;
  r <- fetch url ;;
  ret (match r with
       | Rejected e => Rejected e
       | Fulfilled response =>
           if negb (ok response)
           then Rejected
                  (JsError ("HTTP error! status: "
                              ++ N_toString (http_status response)))
           else json response
       end).

(** [[
    static async getHealthCheck(): Promise<HealthResponse> {
        const response = await fetch(`${this.getBaseUrl()}/api/health`);
        if (!response.ok) {
            throw new Error(`HTTP error! status: ${response.status}`);
        }
        return response.json();
    }
    ]] *)
Definition getHealthCheck : Io (Settled Json) :=
  url <- getBaseUrl ;;
  r <- fetch (url ++ "/api/health") ;;
  ret (match r with
       | Rejected e => Rejected e
       | Fulfilled response =>
           if negb (ok response)
           then Rejected
                  (JsError ("HTTP error! status: "
                              ++ N_toString (http_status response)))
           else json response
       end).

(** The object literal [{ apiInfo, healthCheck }] built from the
    array that [Promise.all] fulfilled with. *)
Definition combine (o : Settled (Json * Json))
  : Settled ConnectionTestResult :=
  match o with
  | Fulfilled (a, h) => Fulfilled {| apiInfo := a; healthCheck := h |}
  | Rejected e => Rejected e
  end.

(** [await Promise.all([p, q])] followed by the [return]: what the
    promise of [testConnection] settles to, [None] while pending. *)
Definition join (schedule : list Completion) (p q : Settled Json)
  : option (Settled ConnectionTestResult) :=
  option_map combine (Promise_all p q schedule).

(** [[
    static async testConnection(): Promise<ConnectionTestResult> {
        const [apiInfo, healthCheck] = await Promise.all([
            this.getApiInfo(),
            this.getHealthCheck()
        ]);
        return { apiInfo, healthCheck };
    }
    ]]
    Both calls run up to their [await fetch] when the array is built,
    so the two requests are issued in this order before either
    settles; [schedule] says in which order the two promises settle. *)
Definition testConnection (schedule : list Completion)
  : Io (option (Settled ConnectionTestResult)) :=
  p <- getApiInfo ;;
  q <- getHealthCheck ;;
  ret (join schedule p q).

End ApiService.

(* ================================================================== *)
(** ** [ApiTestComponent] *)
(* ================================================================== *)

(** [type ApiStatus = 'idle' | 'loading' | 'success' | 'error'] *)
Inductive ApiStatus : Type :=
| Idle
| Loading
| Success
| Error.

(** The four [useState] cells of the component. *)
Record State : Type := {
  apiStatus : ApiStatus;
  apiData : Json;
  healthData : Json;
  error : option string
}.

(** The initial values handed to [useState]. *)
Definition initial_state : State :=
  {| apiStatus := Idle; apiData := JsonNull; healthData := JsonNull;
     error := None |}.

Definition setApiStatus (v : ApiStatus) (st : State) : State :=
  {| apiStatus := v; apiData := apiData st; healthData := healthData st;
     error := error st |}.

Definition setApiData (v : Json) (st : State) : State :=
  {| apiStatus := apiStatus st; apiData := v; healthData := healthData st;
     error := error st |}.

Definition setHealthData (v : Json) (st : State) : State :=
  {| apiStatus := apiStatus st; apiData := apiData st; healthData := v;
     error := error st |}.

Definition setError (v : option string) (st : State) : State :=
  {| apiStatus := apiStatus st; apiData := apiData st;
     healthData := healthData st; error := v |}.

(** The handler up to its [await]:
    [[
      setApiStatus('loading')
      setError(null)
      setApiData(null)
      setHealthData(null)
    ]] *)
Definition testApiConnection_start (st : State) : State :=
  setHealthData JsonNull
    (setApiData JsonNull
       (setError None
          (setApiStatus Loading st))).

(** The handler after its [await], once [testConnection] has settled:
    [[
      try {
        const result = await ApiService.testConnection()
        setApiData(result.apiInfo)
        setHealthData(result.healthCheck)
        setApiStatus('success')
      } catch (err) {
        setApiStatus('error')
        setError(err instanceof Error ? err.message : 'Unknown error occurred')
      }
    ]]
    The inner [match] is the test [err instanceof Error] together with
    the read of [err.message]. *)
Definition testApiConnection_resume
           (o : Settled ConnectionTestResult) (st : State) : State :=
  match o with
  | Fulfilled result =>
      setApiStatus Success
        (setHealthData (healthCheck result)
           (setApiData (apiInfo result) st))
  | Rejected err =>
      setError
        (Some (match err with
               | JsError m => m
               | _ => "Unknown error occurred"
               end))
        (setApiStatus Error st)
  end.

(** [const testApiConnection = async () => { ... }]: one click, with the
    schedule of the check it starts.  While [testConnection] is pending
    the handler stays suspended at its [await]. *)
Definition testApiConnection (schedule : list Completion) (st : State)
  : Io State :=
  let st1 := testApiConnection_start st in
  r <- ApiService.testConnection schedule ;;
  ret (match r with
       | Some o => testApiConnection_resume o st1
       | None => st1
       end).

(** *** What the component renders

    The records follow the [data-testid]s of the JSX: they say which
    elements are there and what each holds.  A field holds the
    expression in braces of its element; [None] for such an expression
    is [undefined], for which React shows nothing.  When a guard
    [x && (...)] is falsy its element is absent; the bare [0] that
    React prints for a guard whose value is the number zero is a text
    node, not an element, and is not part of these records. *)

(** The fragment guarded by [healthData && (...)]. *)
Record HealthFields : Type := {
  health_status : option string;   (* [{healthData.status}] *)
  uptime_text : string             (* [{Math.floor(healthData.uptime)}s] *)
}.

(** The element [data-testid="success-message"]. *)
Record SuccessMessage : Type := {
  api_message : option string;     (* [{apiData.message}] *)
  api_version : option string;     (* [{apiData.version}] *)
  backend_url : string;            (* [{ApiService.getBaseUrl()}] *)
  health_fields : option HealthFields
}.

(** The element [data-testid="error-message"]. *)
Record ErrorMessage : Type := {
  error_text : option string;      (* [{error}] *)
  trying_to_connect_to : string    (* [{ApiService.getBaseUrl()}] *)
}.

Record View : Type := {
  button_disabled : bool;
  button_label : string;
  success_message : option SuccessMessage;
  error_message : option ErrorMessage
}.

Definition is_loading (s : ApiStatus) : bool :=
  match s with
  | Loading => true
  | _ => false
  end.

(** [{healthData && ( <> ... </> )}] *)
Definition render_health (h : Json) : option HealthFields :=
  if truthy h
  then Some {| health_status := status (properties h);
               uptime_text :=
                 JsInteger_toString (Math_floor (uptime (properties h)))
                   ++ "s" |}
  else None.

(** [{apiStatus === 'success' && apiData && ( <div ...> ... </div> )}] *)
Definition render_success (st : State) : Io (option SuccessMessage) :=
  match apiStatus st with
  | Success =>
      if truthy (apiData st)
      then
        url <- ApiService.getBaseUrl ;;
        ret (Some {| api_message := message (properties (apiData st));
                     api_version := version (properties (apiData st));
                     backend_url := url;
                     health_fields := render_health (healthData st) |})
      else ret None
  | _ => ret None
  end.

(** [{apiStatus === 'error' && ( <div ...> ... </div> )}] *)
Definition render_error (st : State) : Io (option ErrorMessage) :=
  match apiStatus st with
  | Error =>
      url <- ApiService.getBaseUrl ;;
      ret (Some {| error_text := error st; trying_to_connect_to := url |})
  | _ => ret None
  end.

(** The body of [ApiTestComponent] below its hooks: the button, then
    the two conditional elements. *)
Definition ApiTestComponent (st : State) : Io View :=
  s <- render_success st ;;
  e <- render_error st ;;
  ret {| button_disabled := is_loading (apiStatus st);
         button_label :=
           if is_loading (apiStatus st)
           then "Testing Connection..."
           else "Test Backend Connection";
         success_message := s;
         error_message := e |}.

(* ================================================================== *)
(** ** Schedules, origins of a rejection, and test doubles *)
(* ================================================================== *)

(** The schedule in which both promises settle, [first] before the
    other one. *)
Definition both_settle (first : Completion) : list Completion :=
  match first with
  | ApiInfoSettles => api_info_first
  | HealthCheckSettles => health_check_first
  end.

(** The runtime after one more request for [url]. *)
Definition after_request (url : string) (rt : Runtime) : Runtime :=
  {| process_env := process_env rt;
     network := network rt;
     requests := requests rt ++ [url] |}.

(** The URL [getBaseUrl] gives in [rt]. *)
Definition base_url (rt : Runtime) : string :=
  fst (ApiService.getBaseUrl rt).

(** The URL of the health endpoint in [rt]. *)
Definition health_url (rt : Runtime) : string :=
  base_url rt ++ "/api/health".

(** What [getApiInfo] and [getHealthCheck] both do with the answer to
    their request. *)
Definition answer (r : Settled Response) : Settled Json :=
  match r with
  | Rejected e => Rejected e
  | Fulfilled response =>
      if negb (ok response)
      then Rejected
             (JsError ("HTTP error! status: "
                         ++ N_toString (http_status response)))
      else json response
  end.

(** What the two calls of one [testConnection] started in [rt] settle
    to: the first request is the [length (requests rt)]-th, the second
    the one after it. *)
Definition api_info_outcome (rt : Runtime) : Settled Json :=
  fst (ApiService.getApiInfo rt).

Definition health_check_outcome (rt : Runtime) : Settled Json :=
  fst (ApiService.getHealthCheck (snd (ApiService.getApiInfo rt))).

(** The promise of [fetch] for the [n]-th request rejects with [e]. *)
Definition fetch_rejects (rt : Runtime) (n : nat) (url : string)
           (e : JsValue) : Prop :=
  network rt n url = Rejected e.

(** The [n]-th request is answered with [ok] set, and the promise of
    [json()] on that response rejects with [e]. *)
Definition json_rejects (rt : Runtime) (n : nat) (url : string)
           (e : JsValue) : Prop :=
  exists response,
    network rt n url = Fulfilled response
    /\ ok response = true
    /\ json response = Rejected e.

(** The [n]-th request is answered with [ok] unset: the client's own
    check throws. *)
Definition status_check_fails (rt : Runtime) (n : nat) (url : string)
           (code : N) : Prop :=
  exists response,
    network rt n url = Fulfilled response
    /\ ok response = false
    /\ http_status response = code.

(** A network that answers by URL: [health] for the health endpoint of
    the default base URL, [info] for anything else. *)
Definition serve (info health : Settled Response)
  : nat -> string -> Settled Response :=
  fun _ url =>
    if String.eqb url "http://localhost:3001/api/health"
    then health
    else info.

(** A fresh runtime: the given environment and network, no request yet. *)
Definition runtime (env : option string)
           (net : nat -> string -> Settled Response) : Runtime :=
  {| process_env := {| NEXT_PUBLIC_API_BASE_URL := env |};
     network := net;
     requests := [] |}.

(** A response with [ok] set whose body parses to [body]. *)
Definition ok_response (body : Json) : Response :=
  {| ok := true; http_status := 200%N; json := Fulfilled body |}.

(** A response with [ok] unset and the given status code.  Its body is
    never read. *)
Definition error_response (code : N) : Response :=
  {| ok := false; http_status := code; json := Fulfilled JsonNull |}.

(** A runtime in which both endpoints answer with [ok] unset: 500 from
    the info endpoint, 503 from the health endpoint. *)
Definition both_fail_runtime : Runtime :=
  runtime None (serve (Fulfilled (error_response 500))
                      (Fulfilled (error_response 503))).

(** The payloads of the repository's tests. *)
Definition mockApiResponse : Json :=
  ApiResponse "Lifestyle Balance Board API" "1.0.0" "2025-08-12T20:00:00.000Z".

Definition mockHealthResponse : Json :=
  HealthResponse "healthy" "2025-08-12T20:00:00.000Z" 3600.

(** The runtime of the tests that succeed: the variable set as the
    tests' setup sets it, and both endpoints answering with the mock
    payloads. *)
Definition mock_success_runtime : Runtime :=
  runtime (Some "http://localhost:3001")
          (serve (Fulfilled (ok_response mockApiResponse))
                 (Fulfilled (ok_response mockHealthResponse))).

(** A runtime whose info endpoint answers with the body [null], which
    nothing validates, and whose health endpoint answers as in the
    tests. *)
Definition null_info_runtime : Runtime :=
  runtime None (serve (Fulfilled (ok_response JsonNull))
                      (Fulfilled (ok_response mockHealthResponse))).

(** A runtime in which both requests are answered with [ok] set, and
    reading the body of the info response rejects with a bare string. *)
Definition json_rejects_runtime : Runtime :=
  runtime None
          (serve (Fulfilled {| ok := true; http_status := 200%N;
                               json := Rejected (JsString "boom") |})
                 (Fulfilled (ok_response mockHealthResponse))).

(** A runtime in which [fetch] for the info endpoint rejects with a
    bare string. *)
Definition fetch_rejects_runtime : Runtime :=
  runtime None (serve (Rejected (JsString "Unknown error"))
                      (Fulfilled (ok_response mockHealthResponse))).

(** The state of the component after a check that succeeded with the
    payloads of the tests. *)
Definition mock_success_state : State :=
  {| apiStatus := Success; apiData := mockApiResponse;
     healthData := mockHealthResponse; error := None |}.

(* ================================================================== *)
(** ** Arbitrary schedules and overlapping checks *)
(* ================================================================== *)

Definition is_api_info (c : Completion) : bool :=
  match c with
  | ApiInfoSettles => true
  | HealthCheckSettles => false
  end.

Definition is_health_check (c : Completion) : bool :=
  match c with
  | ApiInfoSettles => false
  | HealthCheckSettles => true
  end.

(** Whether the promise of [getApiInfo], or of [getHealthCheck], settles
    at some point of the schedule. *)
Definition api_info_settles (schedule : list Completion) : bool :=
  existsb is_api_info schedule.

Definition health_check_settles (schedule : list Completion) : bool :=
  existsb is_health_check schedule.

(** Two invocations of [testApiConnection] whose checks are in flight
    together: both have run up to their [await] before either promise
    settles; then one check settles with [o_first] and its handler
    resumes, and later the other settles with [o_last]. *)
Definition overlapping_checks
           (o_first o_last : Settled ConnectionTestResult) (st : State)
  : State :=
  testApiConnection_resume
    o_last
    (testApiConnection_resume
       o_first
       (testApiConnection_start (testApiConnection_start st))).

(** The state after one click on the button, with the schedule of the
    check it starts, followed by a rendering of the component. *)
Definition click_then_render (schedule : list Completion) (st : State)
  : Io View :=
  st' <- testApiConnection schedule st ;;
  ApiTestComponent st'.

(** One click on the button, with the schedule of the check it would
    start.  The button carries [disabled={apiStatus === 'loading'}]:
    in the state ['loading'] a click does not reach [onClick], so the
    handler does not run. *)
Definition click (schedule : list Completion) (st : State) : Io State :=
  if is_loading (apiStatus st)
  then ret st
  else testApiConnection schedule st.

(** A series of clicks on the button, one after the other.  A check
    whose schedule leaves it pending never settles. *)
Fixpoint clicks (schedules : list (list Completion)) (st : State)
  : Io State :=
  match schedules with
  | [] => ret st
  | schedule :: rest =>
      st' <- click schedule st ;;
      clicks rest st'
  end.

(* ================================================================== *)
(** * Properties *)
(* ================================================================== *)

(** Equations between options met in case analyses. *)
Ltac simplify_options :=
  repeat match goal with
         | H : Some _ = Some _ |- _ => inversion H; subst; clear H
         | H : None = Some _ |- _ => discriminate H
         | H : Some _ = None |- _ => discriminate H
         end.

(** ** Unfolding equations of the client *)

Lemma or_else_nonempty (url fallback : string) :
  url <> "" -> ApiService.or_else (Some url) fallback = url.
Proof.
  destruct url as [|c s]; intro Hne.
  - now elim Hne.
  - reflexivity.
Qed.

Lemma getApiInfo_eq (rt : Runtime) :
  ApiService.getApiInfo rt
  = (answer (network rt (length (requests rt)) (base_url rt)),
     after_request (base_url rt) rt).
Proof. reflexivity. Qed.

Lemma getHealthCheck_eq (rt : Runtime) :
  ApiService.getHealthCheck rt
  = (answer (network rt (length (requests rt)) (health_url rt)),
     after_request (health_url rt) rt).
Proof. reflexivity. Qed.

Lemma testConnection_eq (schedule : list Completion) (rt : Runtime) :
  ApiService.testConnection schedule rt
  = (ApiService.join schedule (api_info_outcome rt) (health_check_outcome rt),
     after_request (health_url rt) (after_request (base_url rt) rt)).
Proof. reflexivity. Qed.

(** ** The base URL *)

(** C8.  [getBaseUrl] returns the value of the environment variable
    when it is set to a non-empty string and ["http://localhost:3001"]
    when it is unset; it changes nothing; and it reads the environment
    at every call: after an earlier call and a change of the variable,
    the next call returns what the new environment says. *)
Theorem getBaseUrl_reads_env_each_call :
  forall rt : Runtime,
    (forall url,
        NEXT_PUBLIC_API_BASE_URL (process_env rt) = Some url ->
        url <> "" ->
        fst (ApiService.getBaseUrl rt) = url)
    /\ (NEXT_PUBLIC_API_BASE_URL (process_env rt) = None ->
        fst (ApiService.getBaseUrl rt) = "http://localhost:3001")
    /\ snd (ApiService.getBaseUrl rt) = rt
    /\ (forall url,
           url <> "" ->
           fst ((_ <- ApiService.getBaseUrl ;;
                 _ <- set_env (Some url) ;;
                 ApiService.getBaseUrl) rt) = url)
    /\ fst ((_ <- ApiService.getBaseUrl ;;
             _ <- set_env None ;;
             ApiService.getBaseUrl) rt) = "http://localhost:3001".
Proof.
  intro rt. repeat split.
  - intros url Henv Hne. cbn. rewrite Henv. now apply or_else_nonempty.
  - intro Henv. cbn. now rewrite Henv.
  - intros url Hne. cbn. now apply or_else_nonempty.
Qed.

(** The two cases of the repository's test of [getBaseUrl]. *)
Example getBaseUrl_production :
  fst (ApiService.getBaseUrl
         (runtime (Some "https://production-api.com")
                  (serve (Rejected JsUndefined) (Rejected JsUndefined))))
  = "https://production-api.com".
Proof. reflexivity. Qed.

Example getBaseUrl_empty_string :
  fst (ApiService.getBaseUrl
         (runtime (Some "")
                  (serve (Rejected JsUndefined) (Rejected JsUndefined))))
  = "http://localhost:3001".
Proof. reflexivity. Qed.

(** ** Responses with [ok] unset *)

Lemma answer_not_ok (response : Response) :
  ok response = false ->
  answer (Fulfilled response)
  = Rejected (JsError ("HTTP error! status: "
                         ++ N_toString (http_status response))).
Proof. intro Hok. cbn. now rewrite Hok. Qed.

Lemma answer_ok (response : Response) :
  ok response = true ->
  answer (Fulfilled response) = json response.
Proof. intro Hok. cbn. now rewrite Hok. Qed.

(** The digits of a status code read back as that code. *)
Lemma N_toString_decimal (n : N) :
  option_map N.of_uint (NilZero.uint_of_string (N_toString n)) = Some n.
Proof.
  unfold N_toString. rewrite NilZero.usu.
  - cbn. now rewrite DecimalN.Unsigned.of_to.
  - destruct n as [|p]; [discriminate|].
    apply DecimalPos.Unsigned.to_uint_nonnil.
Qed.

(** C2.  When the request of [getApiInfo], or of [getHealthCheck], is
    answered by a response whose [ok] is false, the call is rejected
    with an [Error] whose message is ["HTTP error! status: "] followed
    by the decimal digits of the response's status code, whatever that
    code is; the call has issued exactly one request, so nothing was
    tried again, and the failure is the call's outcome.  The digits
    read back as the status code. *)
Theorem not_ok_response_is_thrown :
  forall (rt : Runtime) (response : Response),
    ok response = false ->
    (network rt (length (requests rt)) (base_url rt) = Fulfilled response ->
     fst (ApiService.getApiInfo rt)
     = Rejected (JsError ("HTTP error! status: "
                            ++ N_toString (http_status response)))
     /\ requests (snd (ApiService.getApiInfo rt))
        = requests rt ++ [base_url rt])
    /\ (network rt (length (requests rt)) (health_url rt) = Fulfilled response ->
        fst (ApiService.getHealthCheck rt)
        = Rejected (JsError ("HTTP error! status: "
                               ++ N_toString (http_status response)))
        /\ requests (snd (ApiService.getHealthCheck rt))
           = requests rt ++ [health_url rt])
    /\ option_map N.of_uint
                  (NilZero.uint_of_string (N_toString (http_status response)))
       = Some (http_status response).
Proof.
  intros rt response Hok. split; [| split]; [intro Hnet | intro Hnet |].
  - rewrite getApiInfo_eq. cbn [fst snd]. rewrite Hnet.
    split; [now apply answer_not_ok | reflexivity].
  - rewrite getHealthCheck_eq. cbn [fst snd]. rewrite Hnet.
    split; [now apply answer_not_ok | reflexivity].
  - apply N_toString_decimal.
Qed.

(** The statuses of the repository's tests: 500 for the info endpoint
    and 503 for the health endpoint. *)
Lemma not_ok_response_is_thrown_500_503 :
  ok (error_response 500) = false
  /\ network both_fail_runtime 0 "http://localhost:3001"
     = Fulfilled (error_response 500)
  /\ fst (ApiService.getApiInfo both_fail_runtime)
     = Rejected (JsError "HTTP error! status: 500")
  /\ network both_fail_runtime 0 "http://localhost:3001/api/health"
     = Fulfilled (error_response 503)
  /\ fst (ApiService.getHealthCheck both_fail_runtime)
     = Rejected (JsError "HTTP error! status: 503").
Proof.
  split; [reflexivity | split; [reflexivity | split; [| split]]].
  - exact (proj1 (proj1 (not_ok_response_is_thrown
                           both_fail_runtime (error_response 500) eq_refl)
                        eq_refl)).
  - reflexivity.
  - exact (proj1 (proj1 (proj2 (not_ok_response_is_thrown
                                  both_fail_runtime (error_response 503)
                                  eq_refl))
                        eq_refl)).
Defined.

(** ** Responses with [ok] set *)

(** C6.  When the request of [getApiInfo] is answered by a response
    whose [ok] is true and whose body parses to [body], the call is
    fulfilled with [body] itself, and the one request it issued went to
    the base URL.  [getHealthCheck] does the same with the URL made of
    the base URL followed by ["/api/health"]. *)
Theorem ok_response_body_is_returned :
  forall (rt : Runtime) (response : Response) (body : Json),
    ok response = true ->
    json response = Fulfilled body ->
    (network rt (length (requests rt)) (base_url rt) = Fulfilled response ->
     fst (ApiService.getApiInfo rt) = Fulfilled body
     /\ requests (snd (ApiService.getApiInfo rt))
        = requests rt ++ [fst (ApiService.getBaseUrl rt)])
    /\ (network rt (length (requests rt)) (health_url rt) = Fulfilled response ->
        fst (ApiService.getHealthCheck rt) = Fulfilled body
        /\ requests (snd (ApiService.getHealthCheck rt))
           = requests rt
             ++ [(fst (ApiService.getBaseUrl rt) ++ "/api/health")%string]).
Proof.
  intros rt response body Hok Hjson. split; intro Hnet.
  - rewrite getApiInfo_eq. cbn [fst snd]. rewrite Hnet.
    rewrite (answer_ok _ Hok). now split.
  - rewrite getHealthCheck_eq. cbn [fst snd]. rewrite Hnet.
    rewrite (answer_ok _ Hok). now split.
Qed.

(** The health payload of the repository's test comes back as it is,
    from ["http://localhost:3001/api/health"]. *)
Lemma ok_response_body_is_returned_health :
  ok (ok_response mockHealthResponse) = true
  /\ json (ok_response mockHealthResponse) = Fulfilled mockHealthResponse
  /\ network mock_success_runtime 0 "http://localhost:3001/api/health"
     = Fulfilled (ok_response mockHealthResponse)
  /\ fst (ApiService.getHealthCheck mock_success_runtime)
     = Fulfilled mockHealthResponse
  /\ requests (snd (ApiService.getHealthCheck mock_success_runtime))
     = ["http://localhost:3001/api/health"].
Proof.
  split; [reflexivity | split; [reflexivity | split; [reflexivity |]]].
  exact (proj2 (ok_response_body_is_returned
                  mock_success_runtime
                  (ok_response mockHealthResponse) mockHealthResponse
                  eq_refl eq_refl) eq_refl).
Defined.

(** ** The combined check *)

Lemma Promise_all_both_settle {A B : Type}
      (first : Completion) (p : Settled A) (q : Settled B) :
  Promise_all p q (both_settle first)
  = Some (match p, q with
          | Fulfilled a, Fulfilled b => Fulfilled (a, b)
          | Rejected e, Fulfilled _ => Rejected e
          | Fulfilled _, Rejected e => Rejected e
          | Rejected e0, Rejected e1 =>
              match first with
              | ApiInfoSettles => Rejected e0
              | HealthCheckSettles => Rejected e1
              end
          end).
Proof. destruct first, p, q; reflexivity. Qed.

(** Once settled, [Promise.all] keeps what it settled to. *)
Lemma all_step_settled {A B : Type} (p : Settled A) (q : Settled B)
      (s : AllState A B) (c : Completion) (o : Settled (A * B)) :
  settled s = Some o -> settled (all_step p q s c) = Some o.
Proof.
  intro Hs. destruct c, p, q; cbn; unfold fulfil_if_complete, settle_once;
    cbn; repeat (rewrite ?Hs; cbn;
                 try match goal with
                     | |- context [match ?x with _ => _ end] => destruct x
                     end); cbn; rewrite ?Hs; try reflexivity.
Qed.

Lemma fold_all_step_settled {A B : Type} (p : Settled A) (q : Settled B)
      (schedule : list Completion) (s : AllState A B) (o : Settled (A * B)) :
  settled s = Some o ->
  settled (fold_left (all_step p q) schedule s) = Some o.
Proof.
  revert s. induction schedule as [|c rest IH]; intros s Hs.
  - exact Hs.
  - cbn. apply IH. now apply all_step_settled.
Qed.

(** Completions that happen after [Promise.all] has settled are
    discarded. *)
Lemma Promise_all_stable {A B : Type} (p : Settled A) (q : Settled B)
      (schedule later : list Completion) (o : Settled (A * B)) :
  Promise_all p q schedule = Some o ->
  Promise_all p q (schedule ++ later) = Some o.
Proof.
  unfold Promise_all. rewrite fold_left_app.
  apply fold_all_step_settled.
Qed.

Lemma join_both_settle (first : Completion) (p q : Settled Json) :
  ApiService.join (both_settle first) p q
  = Some (match p, q with
          | Fulfilled a, Fulfilled h =>
              Fulfilled {| apiInfo := a; healthCheck := h |}
          | Rejected e, Fulfilled _ => Rejected e
          | Fulfilled _, Rejected e => Rejected e
          | Rejected e0, Rejected e1 =>
              match first with
              | ApiInfoSettles => Rejected e0
              | HealthCheckSettles => Rejected e1
              end
          end).
Proof.
  unfold ApiService.join. rewrite Promise_all_both_settle.
  destruct first, p, q; reflexivity.
Qed.

Lemma join_stable (schedule later : list Completion) (p q : Settled Json)
      (o : Settled ConnectionTestResult) :
  ApiService.join schedule p q = Some o ->
  ApiService.join (schedule ++ later) p q = Some o.
Proof.
  unfold ApiService.join.
  destruct (Promise_all p q schedule) as [o'|] eqn:Hall; [| discriminate].
  intro H. now rewrite (Promise_all_stable p q schedule later o' Hall).
Qed.

(** A fulfilled [Promise.all] has collected both values, under any
    schedule whatever. *)
Lemma all_step_consistent {A B : Type} (p : Settled A) (q : Settled B)
      (s : AllState A B) (c : Completion) :
  all_consistent p q s -> all_consistent p q (all_step p q s c).
Proof.
  unfold all_consistent.
  destruct s as [v0 v1 st]. cbn. intros (H0 & H1 & Hs & He).
  destruct c.
  - destruct p as [a'|e]; cbn; unfold fulfil_if_complete, settle_once; cbn;
      destruct v1 as [b0|], st as [o|]; cbn;
      (split; [| split; [| split]]); intros;
      simplify_options;
      first [ reflexivity | now apply H0 | now apply H1
            | now (destruct (Hs _ _ eq_refl)) | now apply He
            | now left | now (split; [| apply H1]) ].
  - destruct q as [b'|e]; cbn; unfold fulfil_if_complete, settle_once; cbn;
      destruct v0 as [a0|], st as [o|]; cbn;
      (split; [| split; [| split]]); intros;
      simplify_options;
      first [ reflexivity | now apply H0 | now apply H1
            | now (destruct (Hs _ _ eq_refl)) | now apply He
            | now right | now (split; [apply H0 |]) ].
Qed.

Lemma fold_all_step_consistent {A B : Type} (p : Settled A) (q : Settled B)
      (schedule : list Completion) (s : AllState A B) :
  all_consistent p q s ->
  all_consistent p q (fold_left (all_step p q) schedule s).
Proof.
  revert s. induction schedule as [|c rest IH]; intros s Hs.
  - exact Hs.
  - cbn. apply IH. now apply all_step_consistent.
Qed.

Lemma Promise_all_fulfilled_inv {A B : Type} (p : Settled A) (q : Settled B)
      (schedule : list Completion) (a : A) (b : B) :
  Promise_all p q schedule = Some (Fulfilled (a, b)) ->
  p = Fulfilled a /\ q = Fulfilled b.
Proof.
  unfold Promise_all. intro H.
  assert (Hinit : all_consistent p q (@all_pending A B)).
  { unfold all_consistent. cbn. repeat split; intros; discriminate. }
  destruct (fold_all_step_consistent p q schedule _ Hinit)
    as (_ & _ & Hs & _).
  now apply Hs.
Qed.

Lemma Promise_all_rejected_inv {A B : Type} (p : Settled A) (q : Settled B)
      (schedule : list Completion) (e : JsValue) :
  Promise_all p q schedule = Some (Rejected e) ->
  p = Rejected e \/ q = Rejected e.
Proof.
  unfold Promise_all. intro H.
  assert (Hinit : all_consistent p q (@all_pending A B)).
  { unfold all_consistent. cbn. repeat split; intros; discriminate. }
  destruct (fold_all_step_consistent p q schedule _ Hinit)
    as (_ & _ & _ & He).
  now apply He.
Qed.

Lemma join_fulfilled_inv (schedule : list Completion) (p q : Settled Json)
      (result : ConnectionTestResult) :
  ApiService.join schedule p q = Some (Fulfilled result) ->
  p = Fulfilled (apiInfo result) /\ q = Fulfilled (healthCheck result).
Proof.
  unfold ApiService.join. intro H.
  destruct (Promise_all p q schedule) as [[[a h]|e]|] eqn:Hall;
    cbn in H; simplify_options.
  cbn. now apply (Promise_all_fulfilled_inv p q schedule).
Qed.

(** C1.  Let both calls of one [testConnection] settle, in either
    order.  The combined call is fulfilled, with the object made of the
    two bodies, exactly when both calls are fulfilled.  When a call is
    rejected and it settles first or the other call is fulfilled, the
    combined call is rejected with that call's reason, so the first
    failure wins.  The combined call always settles.  Under any
    schedule at all, a fulfilled combined call carries the body of the
    info call and the body of the health call: there is no partial
    result.  Once the combined call has settled, what the other call
    does later is discarded. *)
Theorem testConnection_both_or_first_failure :
  forall (rt : Runtime) (first : Completion),
    let p := api_info_outcome rt in
    let q := health_check_outcome rt in
    let r := fst (ApiService.testConnection (both_settle first) rt) in
    (forall result,
        r = Some (Fulfilled result)
        <-> p = Fulfilled (apiInfo result)
            /\ q = Fulfilled (healthCheck result))
    /\ (forall e,
           p = Rejected e ->
           first = ApiInfoSettles \/ (exists h, q = Fulfilled h) ->
           r = Some (Rejected e))
    /\ (forall e,
           q = Rejected e ->
           first = HealthCheckSettles \/ (exists a, p = Fulfilled a) ->
           r = Some (Rejected e))
    /\ r <> None
    /\ (forall schedule result,
           fst (ApiService.testConnection schedule rt)
           = Some (Fulfilled result) ->
           p = Fulfilled (apiInfo result)
           /\ q = Fulfilled (healthCheck result))
    /\ (forall schedule later o,
           fst (ApiService.testConnection schedule rt) = Some o ->
           fst (ApiService.testConnection (schedule ++ later) rt) = Some o).
Proof.
  intros rt first p q r.
  assert (Hr : r = ApiService.join (both_settle first) p q) by reflexivity.
  rewrite join_both_settle in Hr.
  split; [| split; [| split; [| split; [| split]]]].
  - intro result. split.
    + intro H. apply (join_fulfilled_inv (both_settle first)).
      now rewrite <- H.
    + intros [Hp Hq]. rewrite Hr, Hp, Hq. now destruct result.
  - intros e Hp [Hfirst | [h Hq]]; rewrite Hr, Hp.
    + rewrite Hfirst. now destruct q.
    + now rewrite Hq.
  - intros e Hq [Hfirst | [a Hp]]; rewrite Hr, Hq.
    + rewrite Hfirst. now destruct p.
    + now rewrite Hp.
  - rewrite Hr. discriminate.
  - intros schedule result H. apply (join_fulfilled_inv schedule).
    now rewrite <- H.
  - intros schedule later o H. rewrite testConnection_eq in *.
    cbn [fst] in *. now apply join_stable.
Qed.

(** The repository's tests of [testConnection]: both succeed, and the
    info call fails with status 500. *)
Example testConnection_both_succeed :
  fst (ApiService.testConnection api_info_first mock_success_runtime)
  = Some (Fulfilled {| apiInfo := mockApiResponse;
                       healthCheck := mockHealthResponse |}).
Proof. reflexivity. Qed.

Example testConnection_info_fails :
  forall first,
    fst (ApiService.testConnection
           (both_settle first)
           (runtime (Some "http://localhost:3001")
                    (serve (Fulfilled (error_response 500))
                           (Fulfilled (ok_response mockHealthResponse)))))
    = Some (Rejected (JsError "HTTP error! status: 500")).
Proof. destruct first; reflexivity. Qed.

(** A rejection short-circuits: the combined call is rejected as soon
    as one call is, while the other is still in flight. *)
Example testConnection_short_circuit :
  fst (ApiService.testConnection [HealthCheckSettles] both_fail_runtime)
  = Some (Rejected (JsError "HTTP error! status: 503"))
  /\ fst (ApiService.testConnection
            [ApiInfoSettles]
            (runtime None (serve (Fulfilled (ok_response mockApiResponse))
                                 (Fulfilled (error_response 503)))))
     = None.
Proof. split; reflexivity. Qed.

(** C5, as the code has it.  The order in which the two calls settle
    does not change what the combined call settles to when at least one
    call is fulfilled, or when both are rejected with the same reason.
    When both are rejected, the combined call is rejected with the
    reason of the call that settled first. *)
Theorem settle_order_only_picks_among_two_failures :
  forall rt : Runtime,
    let p := api_info_outcome rt in
    let q := health_check_outcome rt in
    ((exists a, p = Fulfilled a)
     \/ (exists h, q = Fulfilled h)
     \/ (exists e, p = Rejected e /\ q = Rejected e) ->
     fst (ApiService.testConnection api_info_first rt)
     = fst (ApiService.testConnection health_check_first rt))
    /\ (forall e0 e1,
           p = Rejected e0 ->
           q = Rejected e1 ->
           fst (ApiService.testConnection api_info_first rt)
           = Some (Rejected e0)
           /\ fst (ApiService.testConnection health_check_first rt)
              = Some (Rejected e1)).
Proof.
  intros rt p q.
  assert (H0 : fst (ApiService.testConnection api_info_first rt)
               = ApiService.join (both_settle ApiInfoSettles) p q)
    by reflexivity.
  assert (H1 : fst (ApiService.testConnection health_check_first rt)
               = ApiService.join (both_settle HealthCheckSettles) p q)
    by reflexivity.
  rewrite H0, H1, !join_both_settle. split.
  - intros [[a Hp] | [[h Hq] | [e [Hp Hq]]]].
    + rewrite Hp. now destruct q.
    + rewrite Hq. now destruct p.
    + now rewrite Hp, Hq.
  - intros e0 e1 Hp Hq. now rewrite Hp, Hq.
Qed.

(** C5 as stated fails: when the info endpoint answers 500 and the
    health endpoint answers 503, the combined call is rejected with the
    500 error if the info call settles first and with the 503 error if
    the health call settles first. *)
Lemma settle_order_changes_the_error :
  fst (ApiService.testConnection api_info_first both_fail_runtime)
  = Some (Rejected (JsError "HTTP error! status: 500"))
  /\ fst (ApiService.testConnection health_check_first both_fail_runtime)
     = Some (Rejected (JsError "HTTP error! status: 503"))
  /\ ~ (forall rt : Runtime,
          fst (ApiService.testConnection api_info_first rt)
          = fst (ApiService.testConnection health_check_first rt)).
Proof.
  split; [reflexivity | split; [reflexivity |]].
  intro Hsame. specialize (Hsame both_fail_runtime).
  vm_compute in Hsame. discriminate Hsame.
Qed.

(** ** The handler of the component *)

Lemma testApiConnection_eq (schedule : list Completion) (st : State)
      (rt : Runtime) :
  fst (testApiConnection schedule st rt)
  = match fst (ApiService.testConnection schedule rt) with
    | Some o => testApiConnection_resume o (testApiConnection_start st)
    | None => testApiConnection_start st
    end.
Proof. reflexivity. Qed.

Lemma testApiConnection_start_eq (st : State) :
  testApiConnection_start st
  = {| apiStatus := Loading; apiData := JsonNull; healthData := JsonNull;
       error := None |}.
Proof. reflexivity. Qed.

(** C3.  Whenever the [testConnection] started by a click settles, the
    handler leaves ['loading'] for ['success'] or ['error'].  A
    fulfilment gives ['success'] with the two payloads of the result.
    A rejection with an [Error] gives ['error'] with that error's
    message.  A rejection with any other value gives ['error'] with the
    text ["Unknown error occurred"].  When both calls settle, whichever
    settles first, [testConnection] does settle. *)
Theorem testApiConnection_settles_to_success_or_error :
  forall (rt : Runtime) (st : State),
    (forall (schedule : list Completion) (o : Settled ConnectionTestResult),
        fst (ApiService.testConnection schedule rt) = Some o ->
        let st' := fst (testApiConnection schedule st rt) in
        apiStatus st' <> Loading
        /\ (apiStatus st' = Success \/ apiStatus st' = Error)
        /\ (forall result,
               o = Fulfilled result ->
               st' = {| apiStatus := Success;
                        apiData := apiInfo result;
                        healthData := healthCheck result;
                        error := None |})
        /\ (forall m,
               o = Rejected (JsError m) ->
               st' = {| apiStatus := Error; apiData := JsonNull;
                        healthData := JsonNull; error := Some m |})
        /\ (forall e,
               o = Rejected e ->
               instanceof_Error e = false ->
               st' = {| apiStatus := Error; apiData := JsonNull;
                        healthData := JsonNull;
                        error := Some "Unknown error occurred" |}))
    /\ (forall first : Completion,
           exists o,
             fst (ApiService.testConnection (both_settle first) rt) = Some o
             /\ apiStatus (fst (testApiConnection (both_settle first) st rt))
                <> Loading).
Proof.
  intros rt st. split.
  - intros schedule o Ho st'.
    assert (Hst : st' = testApiConnection_resume
                          o (testApiConnection_start st)).
    { unfold st'. rewrite testApiConnection_eq. now rewrite Ho. }
    rewrite Hst.
    split; [| split; [| split; [| split]]].
    + destruct o; discriminate.
    + destruct o; [now left | now right].
    + intros result ->. reflexivity.
    + intros m ->. reflexivity.
    + intros e -> He. destruct e; try reflexivity. discriminate He.
  - intro first.
    destruct (ApiService.join (both_settle first)
                (api_info_outcome rt) (health_check_outcome rt))
      as [o|] eqn:Hjoin.
    + exists o. split.
      * rewrite testConnection_eq. exact Hjoin.
      * rewrite testApiConnection_eq, testConnection_eq. cbn [fst].
        rewrite Hjoin. destruct o; discriminate.
    + rewrite join_both_settle in Hjoin. discriminate Hjoin.
Qed.

(** The two failures of the component's tests: an [Error] shows its own
    text, a bare string shows the fixed text. *)
Example testApiConnection_resume_mock_errors :
  testApiConnection_resume (Rejected (JsError "Network error occurred"))
                           (testApiConnection_start initial_state)
  = {| apiStatus := Error; apiData := JsonNull; healthData := JsonNull;
       error := Some "Network error occurred" |}
  /\ testApiConnection_resume (Rejected (JsString "Unknown error"))
                              (testApiConnection_start initial_state)
     = {| apiStatus := Error; apiData := JsonNull; healthData := JsonNull;
          error := Some "Unknown error occurred" |}.
Proof. split; reflexivity. Qed.

(** The run of the handler in which the info endpoint answers 500: the
    check settles, and the state is ['error'] with the message the
    client built. *)
Lemma testApiConnection_settles_at_500 :
  apiStatus (fst (testApiConnection api_info_first mock_success_state
                                    both_fail_runtime)) <> Loading
  /\ fst (testApiConnection api_info_first mock_success_state
                            both_fail_runtime)
     = {| apiStatus := Error; apiData := JsonNull; healthData := JsonNull;
          error := Some "HTTP error! status: 500" |}.
Proof.
  pose proof (proj1 (testApiConnection_settles_to_success_or_error
                       both_fail_runtime mock_success_state)
                    api_info_first
                    (Rejected (JsError "HTTP error! status: 500"))
                    eq_refl) as H.
  cbv zeta in H. destruct H as (Hleft & _ & _ & Hmsg & _).
  split; [exact Hleft | exact (Hmsg _ eq_refl)].
Defined.

(** C4.  Whatever the state was, the handler's first four updates give
    the state ['loading'] with no payload and no error text.  They do
    not wait for [testConnection]: while it is pending, and so before
    any completion, this is the state of the component, and the view
    shows neither the success element nor the error element, with the
    button disabled under its loading label. *)
Theorem testApiConnection_clears_at_once :
  forall (rt : Runtime) (st : State),
    testApiConnection_start st
    = {| apiStatus := Loading; apiData := JsonNull; healthData := JsonNull;
         error := None |}
    /\ fst (testApiConnection [] st rt) = testApiConnection_start st
    /\ (forall schedule,
           fst (ApiService.testConnection schedule rt) = None ->
           fst (testApiConnection schedule st rt)
           = testApiConnection_start st)
    /\ (forall rt' : Runtime,
           fst (ApiTestComponent (testApiConnection_start st) rt')
           = {| button_disabled := true;
                button_label := "Testing Connection...";
                success_message := None;
                error_message := None |}).
Proof.
  intros rt st. split; [| split; [| split]].
  - apply testApiConnection_start_eq.
  - reflexivity.
  - intros schedule Hpending.
    rewrite testApiConnection_eq. now rewrite Hpending.
  - intro rt'. reflexivity.
Qed.

(** A second click after a success: the success payloads are gone while
    the new check is in flight. *)
Lemma testApiConnection_clears_prior_success :
  fst (testApiConnection [ApiInfoSettles] mock_success_state
                         (runtime None
                                  (serve (Fulfilled (ok_response mockApiResponse))
                                         (Fulfilled (error_response 503)))))
  = {| apiStatus := Loading; apiData := JsonNull; healthData := JsonNull;
       error := None |}.
Proof.
  destruct (testApiConnection_clears_at_once
              (runtime None
                       (serve (Fulfilled (ok_response mockApiResponse))
                              (Fulfilled (error_response 503))))
              mock_success_state) as (Hstart & _ & Hpending & _).
  rewrite (Hpending [ApiInfoSettles] eq_refl). exact Hstart.
Defined.

(** ** What the component shows *)

Lemma render_success_eq (st : State) (rt : Runtime) :
  fst (render_success st rt)
  = match apiStatus st with
    | Success =>
        if truthy (apiData st)
        then Some {| api_message := message (properties (apiData st));
                     api_version := version (properties (apiData st));
                     backend_url := base_url rt;
                     health_fields := render_health (healthData st) |}
        else None
    | _ => None
    end.
Proof.
  destruct st as [[] d h e]; cbn; try reflexivity.
  unfold render_success. cbn. now destruct (truthy d).
Qed.

Lemma render_error_eq (st : State) (rt : Runtime) :
  fst (render_error st rt)
  = match apiStatus st with
    | Error => Some {| error_text := error st;
                       trying_to_connect_to := base_url rt |}
    | _ => None
    end.
Proof. destruct st as [[] d h e]; reflexivity. Qed.

Lemma ApiTestComponent_success_message (st : State) (rt : Runtime) :
  success_message (fst (ApiTestComponent st rt)) = fst (render_success st rt).
Proof.
  destruct st as [[] d h e]; try reflexivity.
  unfold ApiTestComponent, render_success, bind. cbn.
  now destruct (truthy d).
Qed.

Lemma ApiTestComponent_error_message (st : State) (rt : Runtime) :
  error_message (fst (ApiTestComponent st rt)) = fst (render_error st rt).
Proof.
  destruct st as [[] d h e]; try reflexivity.
  unfold ApiTestComponent, render_success, bind. cbn.
  now destruct (truthy d).
Qed.

(** A state ['success'] without an info payload shows no success
    element and no error element. *)
Lemma success_without_payload_shows_nothing (st : State) (rt : Runtime) :
  apiStatus st = Success ->
  apiData st = JsonNull ->
  success_message (fst (ApiTestComponent st rt)) = None
  /\ error_message (fst (ApiTestComponent st rt)) = None.
Proof.
  intros Hs Hd.
  rewrite ApiTestComponent_success_message, ApiTestComponent_error_message.
  rewrite render_success_eq, render_error_eq, Hs, Hd. now split.
Qed.

(** The check that ends in ['success'] with a [null] info payload. *)
Lemma null_info_check :
  fst (ApiService.testConnection api_info_first null_info_runtime)
  = Some (Fulfilled {| apiInfo := JsonNull;
                       healthCheck := mockHealthResponse |})
  /\ fst (testApiConnection api_info_first initial_state null_info_runtime)
     = {| apiStatus := Success; apiData := JsonNull;
          healthData := mockHealthResponse; error := None |}.
Proof. split; reflexivity. Qed.

(** Above [2^53] the text is the shortest one that reads back as the
    same double, in exponent form from [10^21] on. *)
Example Number_toString_of_large_numbers :
  Number_toString (2 ^ 53 + 2) = "9007199254740994"
  /\ Number_toString (2 ^ 64) = "18446744073709552000"
  /\ Number_toString (10 ^ 20) = "100000000000000000000"
  /\ Number_toString (10 ^ 21) = "1e+21"
  /\ Number_toString (- 10 ^ 21) = "-1e+21"
  /\ Number_toString (2 ^ 70) = "1.1805916207174113e+21"
  /\ Number_toString (2 ^ 100) = "1.2676506002282294e+30".
Proof. vm_compute. repeat split. Qed.

Example uptime_of_1e21 :
  render_health (HealthResponse "healthy" "2025-08-12T20:00:00.000Z"
                                (inject_Z (10 ^ 21)))
  = Some {| health_status := Some "healthy"; uptime_text := "1e+21s" |}.
Proof. vm_compute. reflexivity. Qed.

(** The guards test truthiness: the bodies [0], [""] and [false] hide
    the element as [null] does, while [true], a number other than zero,
    a string with a character and an array show it with every read
    property [undefined]. *)
Example falsy_and_truthy_payloads :
  render_health (JsonNumber 0) = None
  /\ render_health (JsonString "") = None
  /\ render_health (JsonBoolean false) = None
  /\ render_health JsonNull = None
  /\ render_health (JsonArray [])
     = Some {| health_status := None; uptime_text := "NaNs" |}
  /\ render_health (JsonBoolean true)
     = Some {| health_status := None; uptime_text := "NaNs" |}
  /\ success_message
       (fst (ApiTestComponent
               {| apiStatus := Success; apiData := JsonNumber 0;
                  healthData := mockHealthResponse; error := None |}
               mock_success_runtime)) = None.
Proof. repeat split. Qed.

(** Within the range in which every integer is a double, the text of
    a floored number is its decimal digits. *)
Lemma Qfloor_within (u : Q) :
  inject_Z (- 2 ^ 53) <= u <= inject_Z (2 ^ 53) ->
  (Z.abs (Qfloor u) <=? 2 ^ 53)%Z = true.
Proof.
  intros [Hlo Hhi].
  apply Qfloor_resp_le in Hlo. apply Qfloor_resp_le in Hhi.
  rewrite Qfloor_Z in Hlo, Hhi.
  apply Z.leb_le. apply Z.abs_le. split; assumption.
Qed.

Lemma uptime_text_within (u : Q) :
  inject_Z (- 2 ^ 53) <= u <= inject_Z (2 ^ 53) ->
  JsInteger_toString (Math_floor (Some u))
  = NilZero.string_of_int (Z.to_int (Qfloor u)).
Proof.
  intro Hu. cbn [Math_floor JsInteger_toString]. unfold Number_toString.
  now rewrite (Qfloor_within u Hu).
Qed.



(** The URL shown is the one of the environment at the time of the
    rendering, not the one the check was made with. *)
Example backend_url_follows_environment :
  option_map backend_url
    (success_message
       (fst ((st <- testApiConnection
                      api_info_first initial_state ;;
              _ <- set_env (Some "https://production-api.com") ;;
              ApiTestComponent st)
               (runtime None
                        (serve (Fulfilled (ok_response mockApiResponse))
                               (Fulfilled (ok_response mockHealthResponse)))))))
  = Some "https://production-api.com".
Proof. reflexivity. Qed.

(** The uptime is floored: 3600.75 seconds are shown as ["3600s"], and
    a health payload without uptime as ["NaNs"]. *)
Example uptime_is_floored :
  render_health (HealthResponse "healthy" "2025-08-12T20:00:00.000Z" (14403 # 4))
  = Some {| health_status := Some "healthy"; uptime_text := "3600s" |}
  /\ render_health (JsonObj {| message := None; version := None;
                               timestamp := None; status := Some "OK";
                               uptime := None |})
     = Some {| health_status := Some "OK"; uptime_text := "NaNs" |}.
Proof. split; reflexivity. Qed.


(** C9.  The success element is shown only in the state ['success']
    with a truthy info payload, so never with [null], and its fields
    are the properties read from that payload; in that state with a
    truthy payload it is shown.  And there is a run, with the info
    endpoint answering the body [null], after which the state is
    ['success'] while the component shows neither the success element
    nor the error element. *)
Theorem success_element_needs_payload :
  (forall (st : State) (rt : Runtime) (shown : SuccessMessage),
      success_message (fst (ApiTestComponent st rt)) = Some shown ->
      apiStatus st = Success
      /\ apiData st <> JsonNull
      /\ truthy (apiData st) = true
      /\ api_message shown = message (properties (apiData st))
      /\ api_version shown = version (properties (apiData st)))
  /\ (forall (st : State) (rt : Runtime),
         apiStatus st = Success ->
         truthy (apiData st) = true ->
         success_message (fst (ApiTestComponent st rt)) <> None)
  /\ (exists (rt : Runtime) (result : ConnectionTestResult),
         fst (ApiService.testConnection api_info_first rt)
         = Some (Fulfilled result)
         /\ apiInfo result = JsonNull
         /\ apiStatus (fst (testApiConnection api_info_first initial_state rt))
            = Success
         /\ success_message
              (fst (ApiTestComponent
                      (fst (testApiConnection api_info_first initial_state rt))
                      rt)) = None
         /\ error_message
              (fst (ApiTestComponent
                      (fst (testApiConnection api_info_first initial_state rt))
                      rt)) = None).
Proof.
  split; [| split].
  - intros st rt shown.
    rewrite ApiTestComponent_success_message, render_success_eq.
    destruct (apiStatus st); try discriminate.
    destruct (truthy (apiData st)) eqn:Htruthy; [| discriminate].
    intro H. simplify_options.
    split; [reflexivity | split; [| now repeat split]].
    intro Hnull. rewrite Hnull in Htruthy. discriminate Htruthy.
  - intros st rt Hs Hd.
    rewrite ApiTestComponent_success_message, render_success_eq, Hs, Hd.
    discriminate.
  - exists null_info_runtime.
    exists {| apiInfo := JsonNull; healthCheck := mockHealthResponse |}.
    destruct null_info_check as [Hcheck Hstate].
    split; [exact Hcheck | split; [reflexivity |]].
    rewrite Hstate. split; [reflexivity |].
    now apply success_without_payload_shows_nothing.
Qed.

(** ** Where a rejection comes from *)

Lemma answer_rejected_origin (r : Settled Response) (e : JsValue) :
  answer r = Rejected e ->
  r = Rejected e
  \/ (exists response,
         r = Fulfilled response /\ ok response = true
         /\ json response = Rejected e)
  \/ (exists response,
         r = Fulfilled response /\ ok response = false
         /\ e = JsError ("HTTP error! status: "
                           ++ N_toString (http_status response))).
Proof.
  destruct r as [response|e0]; cbn.
  - destruct (ok response) eqn:Hok; cbn; intro H.
    + right; left. exists response. now repeat split.
    + right; right. exists response. inversion H. now repeat split.
  - intro H. left. now inversion H.
Qed.

Lemma health_check_outcome_eq (rt : Runtime) :
  health_check_outcome rt
  = answer (network rt (S (length (requests rt))) (health_url rt)).
Proof.
  unfold health_check_outcome.
  rewrite getApiInfo_eq. cbn [snd]. rewrite getHealthCheck_eq. cbn [fst].
  unfold after_request at 1 2. cbn [requests network].
  rewrite length_app. cbn [length]. rewrite Nat.add_1_r.
  reflexivity.
Qed.

Lemma join_rejected_inv (schedule : list Completion) (p q : Settled Json)
      (e : JsValue) :
  ApiService.join schedule p q = Some (Rejected e) ->
  p = Rejected e \/ q = Rejected e.
Proof.
  unfold ApiService.join. intro H.
  destruct (Promise_all p q schedule) as [[[a h]|e0]|] eqn:Hall;
    cbn in H; simplify_options.
  now apply (Promise_all_rejected_inv p q schedule).
Qed.

(** The text of a status-check error is not the fixed text. *)
Lemma status_text_is_not_fallback (code : N) :
  ("HTTP error! status: " ++ N_toString code)%string
  <> "Unknown error occurred".
Proof. cbn. discriminate. Qed.

(** C10, as the code has it.  A response with [ok] unset makes the call
    fail with an [Error] whose message is ["HTTP error! status: "] and
    the code.  If the component ends with the text
    ["Unknown error occurred"], then the combined call was rejected
    with a reason that is not an [Error], or is an [Error] with that
    very message, and this reason is what the promise of [fetch] or
    the promise of [json()] of one of the two requests was rejected
    with.  An error built by the status check is shown with its own
    message, never with the fixed text. *)
Theorem fallback_text_comes_from_below_the_client :
  forall (rt : Runtime) (st : State) (schedule : list Completion),
    let n := length (requests rt) in
    (forall code,
        status_check_fails rt n (base_url rt) code ->
        fst (ApiService.getApiInfo rt)
        = Rejected (JsError ("HTTP error! status: " ++ N_toString code))
        /\ instanceof_Error
             (JsError ("HTTP error! status: " ++ N_toString code)) = true)
    /\ (forall code,
           status_check_fails rt n (health_url rt) code ->
           fst (ApiService.getHealthCheck rt)
           = Rejected (JsError ("HTTP error! status: " ++ N_toString code)))
    /\ (error (fst (testApiConnection schedule st rt))
        = Some "Unknown error occurred" ->
        exists e,
          fst (ApiService.testConnection schedule rt) = Some (Rejected e)
          /\ (instanceof_Error e = false
              \/ e = JsError "Unknown error occurred")
          /\ (fetch_rejects rt n (base_url rt) e
              \/ json_rejects rt n (base_url rt) e
              \/ fetch_rejects rt (S n) (health_url rt) e
              \/ json_rejects rt (S n) (health_url rt) e))
    /\ (forall code,
           fst (ApiService.testConnection schedule rt)
           = Some (Rejected
                     (JsError ("HTTP error! status: " ++ N_toString code))) ->
           error (fst (testApiConnection schedule st rt))
           = Some ("HTTP error! status: " ++ N_toString code)%string
           /\ error (fst (testApiConnection schedule st rt))
              <> Some "Unknown error occurred").
Proof.
  intros rt st schedule n. split; [| split; [| split]].
  - intros code (response & Hnet & Hok & Hcode).
    rewrite getApiInfo_eq. cbn [fst]. fold n. rewrite Hnet.
    rewrite (answer_not_ok _ Hok), Hcode. now split.
  - intros code (response & Hnet & Hok & Hcode).
    rewrite getHealthCheck_eq. cbn [fst]. fold n. rewrite Hnet.
    now rewrite (answer_not_ok _ Hok), Hcode.
  - rewrite testApiConnection_eq.
    destruct (fst (ApiService.testConnection schedule rt))
      as [[result|e]|] eqn:Hr; cbn; try discriminate.
    intro Htext. exists e. split; [reflexivity |]. split.
    + destruct e; try (now left). right. now inversion Htext.
    + rewrite testConnection_eq in Hr. cbn [fst] in Hr.
      assert (Hnot : forall response,
                 e <> JsError ("HTTP error! status: "
                                 ++ N_toString (http_status response))).
      { intros response ->. cbn in Htext. inversion Htext. }
      destruct (join_rejected_inv _ _ _ _ Hr) as [Hp | Hq].
      * unfold api_info_outcome in Hp. rewrite getApiInfo_eq in Hp.
        cbn [fst] in Hp. fold n in Hp.
        destruct (answer_rejected_origin _ _ Hp)
          as [Hf | [Hj | (response & _ & _ & He)]].
        -- now left.
        -- right; left. exact Hj.
        -- now elim (Hnot response).
      * rewrite health_check_outcome_eq in Hq. fold n in Hq.
        destruct (answer_rejected_origin _ _ Hq)
          as [Hf | [Hj | (response & _ & _ & He)]].
        -- right; right; left. exact Hf.
        -- right; right; right. exact Hj.
        -- now elim (Hnot response).
  - intros code Hr. rewrite testApiConnection_eq, Hr.
    cbn [testApiConnection_resume setError setApiStatus error].
    split; [reflexivity |]. intro H.
    apply (status_text_is_not_fallback code). now inversion H.
Qed.

(** A bare string thrown by [fetch] ends as the fixed text, and the
    reason is the one [fetch] rejected with. *)
Lemma fallback_text_from_fetch_rejection :
  exists e,
    fst (ApiService.testConnection api_info_first fetch_rejects_runtime)
    = Some (Rejected e)
    /\ (instanceof_Error e = false \/ e = JsError "Unknown error occurred")
    /\ (fetch_rejects fetch_rejects_runtime 0 "http://localhost:3001" e
        \/ json_rejects fetch_rejects_runtime 0 "http://localhost:3001" e
        \/ fetch_rejects fetch_rejects_runtime 1
                         "http://localhost:3001/api/health" e
        \/ json_rejects fetch_rejects_runtime 1
                        "http://localhost:3001/api/health" e).
Proof.
  exact (proj1 (proj2 (proj2 (fallback_text_comes_from_below_the_client
                                fetch_rejects_runtime initial_state
                                api_info_first)))
               eq_refl).
Defined.

(** C10 as stated fails: with both requests answered with [ok] set and
    the body of the info response failing to parse with a bare string
    as reason, the component ends with the text
    ["Unknown error occurred"] although no promise of [fetch] was
    rejected. *)
Lemma fallback_text_without_fetch_rejection :
  error (fst (testApiConnection api_info_first initial_state
                                json_rejects_runtime))
  = Some "Unknown error occurred"
  /\ (forall n url e, ~ fetch_rejects json_rejects_runtime n url e)
  /\ ~ (forall (rt : Runtime) (st : State) (schedule : list Completion),
          error (fst (testApiConnection schedule st rt))
          = Some "Unknown error occurred" ->
          exists n url e,
            fetch_rejects rt n url e /\ instanceof_Error e = false).
Proof.
  assert (Hnone : forall n url e, ~ fetch_rejects json_rejects_runtime n url e).
  { intros n url e. unfold fetch_rejects, json_rejects_runtime, runtime, serve.
    cbn. destruct (String.eqb url "http://localhost:3001/api/health");
      discriminate. }
  split; [reflexivity | split; [exact Hnone |]].
  intro Hall.
  destruct (Hall json_rejects_runtime initial_state api_info_first eq_refl)
    as (n & url & e & Hfetch & _).
  exact (Hnone n url e Hfetch).
Qed.

(* ================================================================== *)
(** * Further properties of the client *)
(* ================================================================== *)

(** ** Failures below the client *)

(** X1.  When the promise of [fetch] is rejected, with any value at
    all, [getApiInfo] and [getHealthCheck] are rejected with that same
    value: the reason is neither wrapped nor replaced, and the one
    request is not tried again. *)
Theorem fetch_rejection_passes_through :
  forall (rt : Runtime) (e : JsValue),
    (fetch_rejects rt (length (requests rt)) (base_url rt) e ->
     fst (ApiService.getApiInfo rt) = Rejected e
     /\ requests (snd (ApiService.getApiInfo rt))
        = requests rt ++ [base_url rt])
    /\ (fetch_rejects rt (length (requests rt)) (health_url rt) e ->
        fst (ApiService.getHealthCheck rt) = Rejected e
        /\ requests (snd (ApiService.getHealthCheck rt))
           = requests rt ++ [health_url rt]).
Proof.
  intros rt e. unfold fetch_rejects. split; intro Hnet.
  - rewrite getApiInfo_eq. cbn [fst snd]. rewrite Hnet. now split.
  - rewrite getHealthCheck_eq. cbn [fst snd]. rewrite Hnet. now split.
Qed.

(** The repository's test of a network failure: [fetch] rejects with
    [new Error("Network error")]. *)
Lemma fetch_rejection_passes_through_network_error :
  fetch_rejects
    (runtime (Some "http://localhost:3001")
             (serve (Rejected (JsError "Network error"))
                    (Rejected (JsError "Network error"))))
    0 "http://localhost:3001" (JsError "Network error")
  /\ fst (ApiService.getApiInfo
            (runtime (Some "http://localhost:3001")
                     (serve (Rejected (JsError "Network error"))
                            (Rejected (JsError "Network error")))))
     = Rejected (JsError "Network error").
Proof.
  split; [reflexivity |].
  exact (proj1 (proj1 (fetch_rejection_passes_through
                         (runtime (Some "http://localhost:3001")
                                  (serve (Rejected (JsError "Network error"))
                                         (Rejected (JsError "Network error"))))
                         (JsError "Network error"))
                      eq_refl)).
Defined.

(** X2.  The [ok] flag alone decides between the two branches.  With
    [ok] set the call settles exactly as the promise of [json()] does,
    whatever the status code is and whether that promise is fulfilled
    or rejected: a body is returned even under status 500, and a
    failure to parse is passed on with its reason unchanged.  With [ok]
    unset the body is not looked at: two responses with the same status
    code give the same rejection, whatever their bodies. *)
Theorem ok_flag_alone_decides :
  forall (rt : Runtime) (response : Response),
    (ok response = true ->
     (network rt (length (requests rt)) (base_url rt) = Fulfilled response ->
      fst (ApiService.getApiInfo rt) = json response)
     /\ (network rt (length (requests rt)) (health_url rt)
         = Fulfilled response ->
         fst (ApiService.getHealthCheck rt) = json response))
    /\ (ok response = false ->
        forall (rt' : Runtime) (response' : Response),
          ok response' = false ->
          http_status response' = http_status response ->
          (network rt (length (requests rt)) (base_url rt)
           = Fulfilled response ->
           network rt' (length (requests rt')) (base_url rt')
           = Fulfilled response' ->
           fst (ApiService.getApiInfo rt) = fst (ApiService.getApiInfo rt'))
          /\ (network rt (length (requests rt)) (health_url rt)
              = Fulfilled response ->
              network rt' (length (requests rt')) (health_url rt')
              = Fulfilled response' ->
              fst (ApiService.getHealthCheck rt)
              = fst (ApiService.getHealthCheck rt'))).
Proof.
  intros rt response. split.
  - intro Hok. split; intro Hnet.
    + rewrite getApiInfo_eq. cbn [fst]. rewrite Hnet. now apply answer_ok.
    + rewrite getHealthCheck_eq. cbn [fst]. rewrite Hnet.
      now apply answer_ok.
  - intros Hok rt' response' Hok' Hstatus. split; intros Hnet Hnet'.
    + rewrite !getApiInfo_eq. cbn [fst]. rewrite Hnet, Hnet'.
      rewrite (answer_not_ok _ Hok), (answer_not_ok _ Hok').
      now rewrite Hstatus.
    + rewrite !getHealthCheck_eq. cbn [fst]. rewrite Hnet, Hnet'.
      rewrite (answer_not_ok _ Hok), (answer_not_ok _ Hok').
      now rewrite Hstatus.
Qed.

(** A response with [ok] set and status 500 still gives its body, and
    a body that fails to parse gives the reason of the failure. *)
Lemma ok_flag_alone_decides_status_500 :
  fst (ApiService.getApiInfo
         (runtime None
                  (serve (Fulfilled {| ok := true; http_status := 500%N;
                                       json := Fulfilled mockApiResponse |})
                         (Fulfilled (ok_response mockHealthResponse)))))
  = Fulfilled mockApiResponse
  /\ fst (ApiService.getApiInfo json_rejects_runtime)
     = Rejected (JsString "boom").
Proof.
  split.
  - exact (proj1 (proj1 (ok_flag_alone_decides
                           (runtime None
                                    (serve (Fulfilled
                                              {| ok := true;
                                                 http_status := 500%N;
                                                 json := Fulfilled mockApiResponse |})
                                           (Fulfilled (ok_response mockHealthResponse))))
                           {| ok := true; http_status := 500%N;
                              json := Fulfilled mockApiResponse |})
                        eq_refl)
                 eq_refl).
  - exact (proj1 (proj1 (ok_flag_alone_decides
                           json_rejects_runtime
                           {| ok := true; http_status := 200%N;
                              json := Rejected (JsString "boom") |})
                        eq_refl)
                 eq_refl).
Defined.

(** ** The requests a check issues *)

Lemma testApiConnection_runtime (schedule : list Completion) (st : State)
      (rt : Runtime) :
  snd (testApiConnection schedule st rt)
  = after_request (health_url rt) (after_request (base_url rt) rt).
Proof. reflexivity. Qed.

(** X3.  One [testConnection] issues exactly two requests, first to the
    base URL and then to the base URL followed by ["/api/health"], and
    it does so whatever the answers are and in whatever order the calls
    settle: the health request is issued even when the info request
    fails.  Both URLs come from the same reading of the environment,
    which the check leaves unchanged.  The same holds for one run of
    the component's handler, whatever the state it starts from. *)
Theorem check_issues_two_requests :
  forall (rt : Runtime) (schedule : list Completion) (st : State),
    requests (snd (ApiService.testConnection schedule rt))
    = requests rt
      ++ [fst (ApiService.getBaseUrl rt);
          (fst (ApiService.getBaseUrl rt) ++ "/api/health")%string]
    /\ process_env (snd (ApiService.testConnection schedule rt))
       = process_env rt
    /\ snd (testApiConnection schedule st rt)
       = snd (ApiService.testConnection schedule rt).
Proof.
  intros rt schedule st.
  rewrite testApiConnection_runtime, testConnection_eq. cbn [snd].
  unfold after_request. cbn [requests process_env].
  rewrite <- app_assoc. now repeat split.
Qed.

(** ** When the combined call settles *)

(** With the first promise rejected and the second fulfilled, the whole
    is rejected once the first has settled, and pending until then. *)
Lemma fold_first_rejected {A B : Type} (e : JsValue) (b : B)
      (schedule : list Completion) (s : AllState A B) :
  settled s = None ->
  value0 s = None ->
  settled (fold_left (all_step (Rejected e) (Fulfilled b)) schedule s)
  = if api_info_settles schedule then Some (Rejected e) else None.
Proof.
  revert s. induction schedule as [|c rest IH]; intros s Hs H0.
  - exact Hs.
  - destruct c; cbn [fold_left api_info_settles existsb is_api_info orb].
    + apply fold_all_step_settled.
      cbn. unfold settle_once. now rewrite Hs.
    + apply IH.
      * cbn. unfold fulfil_if_complete. cbn. now rewrite H0.
      * cbn. unfold fulfil_if_complete. cbn. now rewrite H0.
Qed.

Lemma fold_second_rejected {A B : Type} (a : A) (e : JsValue)
      (schedule : list Completion) (s : AllState A B) :
  settled s = None ->
  value1 s = None ->
  settled (fold_left (all_step (Fulfilled a) (Rejected e)) schedule s)
  = if health_check_settles schedule then Some (Rejected e) else None.
Proof.
  revert s. induction schedule as [|c rest IH]; intros s Hs H1.
  - exact Hs.
  - destruct c;
      cbn [fold_left health_check_settles existsb is_health_check orb].
    + apply IH.
      * cbn. unfold fulfil_if_complete. cbn. now rewrite H1.
      * cbn. unfold fulfil_if_complete. cbn. now rewrite H1.
    + apply fold_all_step_settled.
      cbn. unfold settle_once. now rewrite Hs.
Qed.

(** With both promises fulfilled, the whole is fulfilled once both have
    settled, and pending until then: from no value stored, from the
    first stored, and from the second stored. *)
Lemma fold_both_fulfilled {A B : Type} (a : A) (b : B)
      (schedule : list Completion) :
  settled (fold_left (all_step (Fulfilled a) (Fulfilled b)) schedule
                     {| value0 := None; value1 := None; settled := None |})
  = (if api_info_settles schedule && health_check_settles schedule
     then Some (Fulfilled (a, b)) else None)
  /\ settled (fold_left (all_step (Fulfilled a) (Fulfilled b)) schedule
                        {| value0 := Some a; value1 := None;
                           settled := None |})
     = (if health_check_settles schedule
        then Some (Fulfilled (a, b)) else None)
  /\ settled (fold_left (all_step (Fulfilled a) (Fulfilled b)) schedule
                        {| value0 := None; value1 := Some b;
                           settled := None |})
     = (if api_info_settles schedule
        then Some (Fulfilled (a, b)) else None).
Proof.
  induction schedule as [|c rest (IHnone & IHfirst & IHsecond)].
  - now repeat split.
  - destruct c;
      cbn [fold_left api_info_settles health_check_settles existsb
           is_api_info is_health_check orb andb];
      fold (api_info_settles rest); fold (health_check_settles rest).
    + split; [| split].
      * exact IHfirst.
      * exact IHfirst.
      * now apply fold_all_step_settled.
    + split; [| split].
      * rewrite andb_true_r. exact IHsecond.
      * now apply fold_all_step_settled.
      * exact IHsecond.
Qed.

Lemma Promise_all_any_schedule {A B : Type} (p : Settled A) (q : Settled B)
      (schedule : list Completion) :
  Promise_all p q schedule
  = match p, q with
    | Fulfilled a, Fulfilled b =>
        if api_info_settles schedule && health_check_settles schedule
        then Some (Fulfilled (a, b)) else None
    | Rejected e, Fulfilled _ =>
        if api_info_settles schedule then Some (Rejected e) else None
    | Fulfilled _, Rejected e =>
        if health_check_settles schedule then Some (Rejected e) else None
    | Rejected e0, Rejected e1 =>
        match schedule with
        | [] => None
        | ApiInfoSettles :: _ => Some (Rejected e0)
        | HealthCheckSettles :: _ => Some (Rejected e1)
        end
    end.
Proof.
  unfold Promise_all. destruct p as [a|e0], q as [b|e1].
  - apply fold_both_fulfilled.
  - now apply fold_second_rejected.
  - now apply fold_first_rejected.
  - destruct schedule as [|[] rest]; [reflexivity | |];
      cbn [fold_left]; now apply fold_all_step_settled.
Qed.

(** X4.  What [testConnection] settles to under any schedule, complete
    or not.  It is fulfilled only once both calls have settled, and
    then with both bodies.  It is rejected as soon as a call that fails
    has settled, also while the other call is still in flight, and with
    the reason of the failing call that settled first.  Otherwise it is
    still pending. *)
Theorem testConnection_under_any_schedule :
  forall (rt : Runtime) (schedule : list Completion),
    fst (ApiService.testConnection schedule rt)
    = match api_info_outcome rt, health_check_outcome rt with
      | Fulfilled a, Fulfilled h =>
          if api_info_settles schedule && health_check_settles schedule
          then Some (Fulfilled {| apiInfo := a; healthCheck := h |})
          else None
      | Rejected e, Fulfilled _ =>
          if api_info_settles schedule then Some (Rejected e) else None
      | Fulfilled _, Rejected e =>
          if health_check_settles schedule then Some (Rejected e) else None
      | Rejected e0, Rejected e1 =>
          match schedule with
          | [] => None
          | ApiInfoSettles :: _ => Some (Rejected e0)
          | HealthCheckSettles :: _ => Some (Rejected e1)
          end
      end.
Proof.
  intros rt schedule. rewrite testConnection_eq. cbn [fst].
  unfold ApiService.join. rewrite Promise_all_any_schedule.
  destruct (api_info_outcome rt) as [a|e0],
           (health_check_outcome rt) as [h|e1].
  - now destruct (api_info_settles schedule && health_check_settles schedule).
  - now destruct (health_check_settles schedule).
  - now destruct (api_info_settles schedule).
  - now destruct schedule as [|[] rest].
Qed.

(** ** The base URL is never empty *)

Lemma length_append (s1 s2 : string) :
  String.length (s1 ++ s2) = (String.length s1 + String.length s2)%nat.
Proof.
  induction s1 as [|c s1 IH]; cbn; [reflexivity | now rewrite IH].
Qed.

(** X5.  [getBaseUrl] never returns the empty string: a variable set to
    the empty string counts as unset and gives the default, because the
    fallback is taken with [||].  So no request of the client goes to an
    empty URL, and the health URL is never the bare path
    ["/api/health"]. *)
Theorem base_url_is_never_empty :
  forall rt : Runtime,
    fst (ApiService.getBaseUrl rt) <> ""
    /\ (NEXT_PUBLIC_API_BASE_URL (process_env rt) = Some "" ->
        fst (ApiService.getBaseUrl rt) = "http://localhost:3001")
    /\ (forall (schedule : list Completion) (url : string),
           In url (requests (snd (ApiService.testConnection schedule rt))) ->
           In url (requests rt) \/ url <> "")
    /\ (fst (ApiService.getBaseUrl rt) ++ "/api/health")%string
       <> "/api/health".
Proof.
  intro rt.
  assert (Hne : fst (ApiService.getBaseUrl rt) <> "").
  { cbn. destruct (NEXT_PUBLIC_API_BASE_URL (process_env rt)) as [[|c s]|];
      discriminate. }
  split; [exact Hne | split; [| split]].
  - intro Henv. cbn. now rewrite Henv.
  - intros schedule url. rewrite testConnection_eq. cbn [snd].
    unfold after_request. cbn [requests]. rewrite <- app_assoc.
    intro Hin. apply in_app_or in Hin. destruct Hin as [Hold | Hnew].
    + now left.
    + right. destruct Hnew as [<- | [<- | []]].
      * exact Hne.
      * unfold health_url, base_url.
        destruct (fst (ApiService.getBaseUrl rt)); [now elim Hne |].
        discriminate.
  - intro Heq. apply (f_equal String.length) in Heq.
    rewrite length_append in Heq.
    destruct (fst (ApiService.getBaseUrl rt)) as [|c s]; [now elim Hne |].
    cbn in Heq. lia.
Qed.

(* ================================================================== *)
(** * Further properties of the component *)
(* ================================================================== *)

(** ** A check forgets what was there before *)

(** X6.  The state in which one run of the handler leaves the
    component, and the requests it issues, do not depend on the state
    the component was in when the button was clicked: an earlier
    success or error leaves no trace, whether the new check has
    settled or is still pending. *)
Theorem check_forgets_prior_state :
  forall (schedule : list Completion) (st st' : State) (rt : Runtime),
    testApiConnection schedule st rt = testApiConnection schedule st' rt
    /\ click_then_render schedule st rt = click_then_render schedule st' rt.
Proof.
  intros schedule st st' rt.
  assert (H : testApiConnection schedule st rt
              = testApiConnection schedule st' rt).
  { rewrite (surjective_pairing (testApiConnection schedule st rt)).
    rewrite (surjective_pairing (testApiConnection schedule st' rt)).
    rewrite !testApiConnection_eq, !testApiConnection_runtime.
    now rewrite !testApiConnection_start_eq. }
  split; [exact H |].
  unfold click_then_render, bind. now rewrite H.
Qed.

(** ** What can be on the screen *)

Lemma ApiTestComponent_button (st : State) (rt : Runtime) :
  button_disabled (fst (ApiTestComponent st rt)) = is_loading (apiStatus st)
  /\ button_label (fst (ApiTestComponent st rt))
     = (if is_loading (apiStatus st)
        then "Testing Connection..."
        else "Test Backend Connection").
Proof.
  destruct st as [[] d h e]; try (now split).
  unfold ApiTestComponent, render_success, bind. cbn.
  now destruct (truthy d).
Qed.

(** X7.  Rendering issues no request and changes nothing.  The button
    is disabled exactly in the state ['loading'], and its label says
    so.  The error element is shown exactly in the state ['error'],
    with the stored text and the base URL of the time of rendering.
    The success element and the error element are never shown
    together, and neither is shown while idle or loading. *)
Theorem view_follows_status :
  forall (st : State) (rt : Runtime),
    snd (ApiTestComponent st rt) = rt
    /\ (button_disabled (fst (ApiTestComponent st rt)) = true
        <-> apiStatus st = Loading)
    /\ button_label (fst (ApiTestComponent st rt))
       = (if button_disabled (fst (ApiTestComponent st rt))
          then "Testing Connection..."
          else "Test Backend Connection")
    /\ (forall shown,
           error_message (fst (ApiTestComponent st rt)) = Some shown
           <-> apiStatus st = Error
               /\ shown = {| error_text := error st;
                             trying_to_connect_to :=
                               fst (ApiService.getBaseUrl rt) |})
    /\ (success_message (fst (ApiTestComponent st rt)) = None
        \/ error_message (fst (ApiTestComponent st rt)) = None)
    /\ (apiStatus st = Idle \/ apiStatus st = Loading ->
        success_message (fst (ApiTestComponent st rt)) = None
        /\ error_message (fst (ApiTestComponent st rt)) = None).
Proof.
  intros st rt.
  split; [| split; [| split; [| split; [| split]]]].
  - destruct st as [[] d h e]; try reflexivity.
    unfold ApiTestComponent, render_success, bind. cbn.
    now destruct (truthy d).
  - rewrite (proj1 (ApiTestComponent_button st rt)).
    destruct (apiStatus st); cbn; split; intro H;
      first [reflexivity | discriminate H].
  - rewrite (proj2 (ApiTestComponent_button st rt)).
    now rewrite (proj1 (ApiTestComponent_button st rt)).
  - intro shown.
    rewrite ApiTestComponent_error_message, render_error_eq.
    destruct (apiStatus st); split;
      try (intro H; discriminate H);
      try (intros [H _]; discriminate H).
    + intro H. inversion H. now split.
    + intros [_ ->]. reflexivity.
  - rewrite ApiTestComponent_success_message, ApiTestComponent_error_message.
    rewrite render_success_eq, render_error_eq.
    destruct (apiStatus st); try (now left); now right.
  - rewrite ApiTestComponent_success_message, ApiTestComponent_error_message.
    rewrite render_success_eq, render_error_eq.
    intros [-> | ->]; now split.
Qed.

(** ** The screen after a check has settled *)

Lemma click_then_render_eq (schedule : list Completion) (st : State)
      (rt : Runtime) :
  fst (click_then_render schedule st rt)
  = fst (ApiTestComponent
           (fst (testApiConnection schedule st rt))
           (snd (testApiConnection schedule st rt))).
Proof.
  unfold click_then_render, bind.
  now destruct (testApiConnection schedule st rt).
Qed.


(** X8.  Once the check started by a click has settled, the button is
    enabled again under its first label.  After a rejection the error
    element is shown, with the error's message, or the fixed text for a
    reason that is not an [Error], and with the base URL; the success
    element is not shown.  After a fulfilment the error element is not
    shown, and the success element is shown exactly when the info
    payload is truthy: not for [null], and not for [false], [0] or
    [""] either. *)
Theorem screen_after_settled_check :
  forall (rt : Runtime) (st : State) (schedule : list Completion)
         (o : Settled ConnectionTestResult),
    fst (ApiService.testConnection schedule rt) = Some o ->
    button_disabled (fst (click_then_render schedule st rt)) = false
    /\ button_label (fst (click_then_render schedule st rt))
       = "Test Backend Connection"
    /\ (forall m,
           o = Rejected (JsError m) ->
           error_message (fst (click_then_render schedule st rt))
           = Some {| error_text := Some m;
                     trying_to_connect_to := fst (ApiService.getBaseUrl rt) |}
           /\ success_message (fst (click_then_render schedule st rt)) = None)
    /\ (forall e,
           o = Rejected e ->
           instanceof_Error e = false ->
           error_message (fst (click_then_render schedule st rt))
           = Some {| error_text := Some "Unknown error occurred";
                     trying_to_connect_to := fst (ApiService.getBaseUrl rt) |}
           /\ success_message (fst (click_then_render schedule st rt)) = None)
    /\ (forall result,
           o = Fulfilled result ->
           error_message (fst (click_then_render schedule st rt)) = None
           /\ (success_message (fst (click_then_render schedule st rt))
               <> None
               <-> truthy (apiInfo result) = true)).
Proof.
  intros rt st schedule o Ho.
  rewrite click_then_render_eq.
  assert (Hst : fst (testApiConnection schedule st rt)
                = testApiConnection_resume o (testApiConnection_start st)).
  { rewrite testApiConnection_eq. now rewrite Ho. }
  rewrite Hst.
  set (rt' := snd (testApiConnection schedule st rt)).
  assert (Hurl : base_url rt' = base_url rt) by reflexivity.
  split; [| split; [| split; [| split]]].
  - rewrite (proj1 (ApiTestComponent_button _ _)). now destruct o.
  - rewrite (proj2 (ApiTestComponent_button _ _)). now destruct o.
  - intros m ->.
    rewrite ApiTestComponent_error_message, ApiTestComponent_success_message.
    rewrite render_error_eq, render_success_eq, Hurl. now split.
  - intros e -> He.
    rewrite ApiTestComponent_error_message, ApiTestComponent_success_message.
    rewrite render_error_eq, render_success_eq, Hurl.
    destruct e; try discriminate He; now split.
  - intros result ->.
    rewrite ApiTestComponent_error_message, ApiTestComponent_success_message.
    rewrite render_error_eq, render_success_eq.
    cbn [testApiConnection_resume setApiStatus setHealthData setApiData
         apiStatus apiData].
    split; [reflexivity |].
    destruct (truthy (apiInfo result)); split; intro H;
      first [reflexivity | now elim H | discriminate].
Qed.

(** After the check in which both endpoints fail, with the info call
    settling first. *)
Lemma screen_after_settled_check_500 :
  fst (ApiService.testConnection api_info_first both_fail_runtime)
  = Some (Rejected (JsError "HTTP error! status: 500"))
  /\ button_disabled
       (fst (click_then_render api_info_first initial_state
                               both_fail_runtime)) = false
  /\ error_message
       (fst (click_then_render api_info_first initial_state
                               both_fail_runtime))
     = Some {| error_text := Some "HTTP error! status: 500";
               trying_to_connect_to := "http://localhost:3001" |}.
Proof.
  split; [reflexivity |].
  destruct (screen_after_settled_check
              both_fail_runtime initial_state api_info_first
              (Rejected (JsError "HTTP error! status: 500")) eq_refl)
    as (Hbutton & _ & Herror & _).
  split; [exact Hbutton |].
  exact (proj1 (Herror "HTTP error! status: 500" eq_refl)).
Defined.

(** ** Checks that overlap *)

(** X9.  When two checks are in flight together, what is on the screen
    after both have settled is what the check that settled last would
    have given alone: if the check started first settles last, its
    outcome replaces the one of the check started after it.  What the
    earlier settlement stored can stay in the state without being
    shown: the payloads of a success followed by a failure, and the
    error text of a failure followed by a success. *)
Theorem overlapping_checks_last_settlement_wins :
  forall (o_first o_last : Settled ConnectionTestResult)
         (st : State) (rt : Runtime),
    ApiTestComponent (overlapping_checks o_first o_last st) rt
    = ApiTestComponent
        (testApiConnection_resume o_last (testApiConnection_start st)) rt
    /\ (forall result e,
           o_first = Fulfilled result ->
           o_last = Rejected e ->
           apiStatus (overlapping_checks o_first o_last st) = Error
           /\ apiData (overlapping_checks o_first o_last st) = apiInfo result
           /\ healthData (overlapping_checks o_first o_last st)
              = healthCheck result)
    /\ (forall e result,
           o_first = Rejected e ->
           o_last = Fulfilled result ->
           apiStatus (overlapping_checks o_first o_last st) = Success
           /\ error (overlapping_checks o_first o_last st) <> None).
Proof.
  intros o_first o_last st rt. split; [| split].
  - destruct o_first as [r1|e1], o_last as [r2|e2];
      unfold overlapping_checks; cbn;
      unfold ApiTestComponent, render_success, render_error, bind; cbn;
      try reflexivity;
      destruct (truthy (apiInfo r2)); reflexivity.
  - intros result e -> ->. now repeat split.
  - intros e result -> ->. split; [reflexivity | discriminate].
Qed.

(** ** The uptime that is shown *)

(** X10.  For a health payload with an uptime between [-2^53] and
    [2^53], the text shown is the decimal digits of the largest integer
    that is not above the uptime, followed by ["s"]; the digits read
    back as that integer.  For a health payload without uptime the text
    is ["NaNs"]. *)
Theorem uptime_text_is_the_floor :
  forall o : JsonObject,
    (forall u : Q,
        uptime o = Some u ->
        inject_Z (- 2 ^ 53) <= u <= inject_Z (2 ^ 53) ->
        exists z : Z,
          render_health (JsonObj o)
          = Some {| health_status := status o;
                    uptime_text :=
                      (NilZero.string_of_int (Z.to_int z) ++ "s")%string |}
          /\ inject_Z z <= u
          /\ u < inject_Z (z + 1)
          /\ option_map Z.of_int
                        (NilZero.int_of_string
                           (NilZero.string_of_int (Z.to_int z)))
             = Some z)
    /\ (uptime o = None ->
        render_health (JsonObj o)
        = Some {| health_status := status o; uptime_text := "NaNs" |}).
Proof.
  intro o. split.
  - intros u Hu Hbound. exists (Qfloor u). split; [| split; [| split]].
    + unfold render_health. cbn [truthy properties]. rewrite Hu.
      now rewrite (uptime_text_within u Hbound).
    + apply Qfloor_le.
    + apply Qlt_floor.
    + rewrite NilZero.isi.
      * cbn. now rewrite DecimalZ.of_to.
      * destruct (Qfloor u) as [|p|p]; cbn; try discriminate.
        intro H. inversion H as [Hp].
        now apply (DecimalPos.Unsigned.to_uint_nonnil p).
      * destruct (Qfloor u) as [|p|p]; cbn; try discriminate.
        intro H. inversion H as [Hp].
        now apply (DecimalPos.Unsigned.to_uint_nonnil p).
  - intro Hu. unfold render_health. cbn [truthy properties].
    now rewrite Hu.
Qed.

(** An uptime of 3600.75 seconds lies within the bounds; the integer
    shown is at most the uptime and its successor is above it. *)
Lemma uptime_text_is_the_floor_3600 :
  inject_Z (- 2 ^ 53) <= 14403 # 4 <= inject_Z (2 ^ 53)
  /\ exists z : Z,
       render_health (HealthResponse "healthy" "2025-08-12T20:00:00.000Z"
                                     (14403 # 4))
       = Some {| health_status := Some "healthy";
                 uptime_text :=
                   (NilZero.string_of_int (Z.to_int z) ++ "s")%string |}
       /\ inject_Z z <= 14403 # 4
       /\ 14403 # 4 < inject_Z (z + 1)
       /\ option_map Z.of_int
                     (NilZero.int_of_string
                        (NilZero.string_of_int (Z.to_int z)))
          = Some z.
Proof.
  assert (Hbounds : inject_Z (- 2 ^ 53) <= 14403 # 4 <= inject_Z (2 ^ 53)).
  { split; unfold Qle; cbn; lia. }
  split; [exact Hbounds |].
  exact (proj1 (uptime_text_is_the_floor
                  {| message := None; version := None;
                     timestamp := Some "2025-08-12T20:00:00.000Z";
                     status := Some "healthy";
                     uptime := Some (14403 # 4) |})
               (14403 # 4) eq_refl Hbounds).
Defined.

(** Negative uptimes are floored downwards. *)
Example uptime_floor_of_negative :
  render_health (HealthResponse "healthy" "2025-08-12T20:00:00.000Z"
                                (- 1 # 2))
  = Some {| health_status := Some "healthy"; uptime_text := "-1s" |}.
Proof. reflexivity. Qed.

(** ** From the network to the screen *)






(** ** A series of checks *)

Lemma clicks_cons (schedule : list Completion)
      (rest : list (list Completion)) (st : State) (rt : Runtime) :
  clicks (schedule :: rest) st rt
  = clicks rest (fst (click schedule st rt)) (snd (click schedule st rt)).
Proof.
  cbn [clicks]. unfold bind.
  now destruct (click schedule st rt).
Qed.

Lemma clicks_app (earlier later : list (list Completion)) (st : State)
      (rt : Runtime) :
  clicks (earlier ++ later) st rt
  = clicks later (fst (clicks earlier st rt)) (snd (clicks earlier st rt)).
Proof.
  revert st rt. induction earlier as [|schedule rest IH]; intros st rt.
  - reflexivity.
  - rewrite <- app_comm_cons, !clicks_cons. apply IH.
Qed.

(** While a check is pending, clicks do nothing. *)
Lemma clicks_while_loading (schedules : list (list Completion))
      (st : State) (rt : Runtime) :
  apiStatus st = Loading -> clicks schedules st rt = (st, rt).
Proof.
  intro Hloading. induction schedules as [|schedule rest IH].
  - reflexivity.
  - rewrite clicks_cons. unfold click. rewrite Hloading. exact IH.
Qed.

(** A click outside ['loading'] runs the handler, and when both calls
    of its check settle the state is not ['loading'] afterwards. *)
Lemma click_that_settles (first : Completion) (st : State) (rt : Runtime) :
  apiStatus st <> Loading ->
  click (both_settle first) st rt
  = testApiConnection (both_settle first) st rt
  /\ apiStatus (fst (testApiConnection (both_settle first) st rt))
     <> Loading.
Proof.
  intro Hst. split.
  - unfold click. now destruct (apiStatus st).
  - rewrite testApiConnection_eq, testConnection_eq. cbn [fst].
    rewrite join_both_settle.
    destruct (api_info_outcome rt), (health_check_outcome rt), first;
      discriminate.
Qed.

Lemma clicks_that_settle (firsts : list Completion) (st : State)
      (rt : Runtime) :
  apiStatus st <> Loading ->
  requests (snd (clicks (map both_settle firsts) st rt))
  = requests rt
    ++ concat (map (fun _ => [base_url rt; health_url rt])
                   (map both_settle firsts))
  /\ process_env (snd (clicks (map both_settle firsts) st rt))
     = process_env rt
  /\ apiStatus (fst (clicks (map both_settle firsts) st rt)) <> Loading.
Proof.
  revert st rt. induction firsts as [|first rest IH]; intros st rt Hst.
  - cbn. rewrite app_nil_r. now repeat split.
  - cbn [map]. rewrite clicks_cons.
    destruct (click_that_settles first st rt Hst) as [Hclick Hafter].
    rewrite Hclick.
    set (rt1 := snd (testApiConnection (both_settle first) st rt)).
    assert (Hbase : base_url rt1 = base_url rt) by reflexivity.
    assert (Hhealth : health_url rt1 = health_url rt) by reflexivity.
    assert (Hreq1 : requests rt1
                    = requests rt ++ [base_url rt; health_url rt]).
    { unfold rt1. rewrite testApiConnection_runtime.
      unfold after_request. cbn [requests]. now rewrite <- app_assoc. }
    assert (Henv1 : process_env rt1 = process_env rt) by reflexivity.
    destruct (IH (fst (testApiConnection (both_settle first) st rt))
                 rt1 Hafter) as (Hreq & Henv & Hlast).
    rewrite Hreq, Henv, Hbase, Hhealth, Hreq1, Henv1.
    cbn [map concat]. rewrite <- app_assoc.
    split; [reflexivity | split; [reflexivity | exact Hlast]].
Qed.

Lemma length_two_each {X : Type} (a b : string) (l : list X) :
  length (concat (map (fun _ => [a; b]) l)) = (2 * length l)%nat.
Proof.
  induction l as [|x l IH]; [reflexivity |].
  cbn [map concat length app]. rewrite IH. lia.
Qed.

(** X13.  A click made while a check is pending does nothing: the
    button is disabled, so the state stays ['loading'] and no request
    is issued, however many clicks follow.  In a series of clicks each
    made outside ['loading'] and each starting a check whose two calls
    settle, every click issues its two requests, to the base URL and to
    the health URL in turn, so [k] clicks issue [2 * k] requests; the
    state after the series is not ['loading'], and it is the one the
    last click alone gives, from the initial state, in the runtime the
    earlier clicks have left. *)
Theorem series_of_clicks :
  forall (st : State) (rt : Runtime),
    (apiStatus st = Loading ->
     forall schedules : list (list Completion),
       clicks schedules st rt = (st, rt))
    /\ (apiStatus st <> Loading ->
        forall (earlier : list Completion) (last : Completion),
          requests (snd (clicks (map both_settle (earlier ++ [last])) st rt))
          = requests rt
            ++ concat (map (fun _ => [fst (ApiService.getBaseUrl rt);
                                      (fst (ApiService.getBaseUrl rt)
                                         ++ "/api/health")%string])
                           (earlier ++ [last]))
          /\ length (requests
                       (snd (clicks (map both_settle (earlier ++ [last]))
                                    st rt)))
             = (length (requests rt) + 2 * length (earlier ++ [last]))%nat
          /\ apiStatus (fst (clicks (map both_settle (earlier ++ [last]))
                                    st rt)) <> Loading
          /\ fst (clicks (map both_settle (earlier ++ [last])) st rt)
             = fst (testApiConnection
                      (both_settle last) initial_state
                      (snd (clicks (map both_settle earlier) st rt)))).
Proof.
  intros st rt. split.
  - intros Hloading schedules. now apply clicks_while_loading.
  - intros Hst earlier last.
    destruct (clicks_that_settle (earlier ++ [last]) st rt Hst)
      as (Hreq & _ & Hafter).
    rewrite map_map in Hreq.
    split; [exact Hreq | split; [| split; [exact Hafter |]]].
    + rewrite Hreq, length_app. f_equal. apply length_two_each.
    + rewrite map_app, clicks_app. cbn [map]. rewrite clicks_cons.
      destruct (clicks_that_settle earlier st rt Hst) as (_ & _ & Hearlier).
      destruct (click_that_settles
                  last
                  (fst (clicks (map both_settle earlier) st rt))
                  (snd (clicks (map both_settle earlier) st rt))
                  Hearlier) as [Hclick _].
      rewrite Hclick. cbn [clicks ret fst].
      rewrite !testApiConnection_eq.
      now rewrite !testApiConnection_start_eq.
Qed.

(** A click while the first check is still pending: two requests in
    all, and the state is still ['loading']. *)
Example click_while_pending_is_ignored :
  apiStatus (fst (clicks [[]; api_info_first] initial_state
                         mock_success_runtime)) = Loading
  /\ requests (snd (clicks [[]; api_info_first] initial_state
                           mock_success_runtime))
     = ["http://localhost:3001"; "http://localhost:3001/api/health"].
Proof. split; reflexivity. Qed.
